(** * Autocompletion resolver of the Uppaal language server (src/autocomplete.cpp)

    A shallow embedding of [sym_type], the static suggestion tables,
    [is_name_autogenerated], the [ResultBuilder] class and the handler of the
    [autocomplete] command, followed by the properties of the resolver. *)

From Stdlib Require Import ZArith NArith List String Ascii Bool Lia.
Import ListNotations.
Open Scope string_scope.

(** ** [std::string] / [std::string_view] operations used by the resolver *)

Module Str.

(** [s.substr(pos, n)]; the count is clamped to the end of the string.
    (Every call of the source has [pos] within the string.) *)
Definition substr (s : string) (pos n : nat) : string := substring pos n s.

(** [s.substr(pos)]: the rest of the string from [pos] on. *)
Definition substr_from (s : string) (pos : nat) : string :=
  substring pos (String.length s - pos) s.

(** [s.ends_with(x)]: [size() >= x.size()] and the last [x.size()]
    characters compare equal to [x]. *)
Definition ends_with (s x : string) : bool :=
  (String.length x <=? String.length s)%nat
  && String.eqb (substring (String.length s - String.length x) (String.length x) s) x.

(** [s.find_last_of(c)]: the greatest index holding [c];
    [None] stands for [std::string::npos]. *)
Fixpoint find_last_of (c : ascii) (s : string) : option nat :=
  match s with
  | EmptyString => None
  | String a s' =>
      match find_last_of c s' with
      | Some k => Some (S k)
      | None => if Ascii.eqb a c then Some 0%nat else None
      end
  end.

(** [std::ranges::all_of] over the characters of a string view. *)
Fixpoint all_of (p : ascii -> bool) (s : string) : bool :=
  match s with
  | EmptyString => true
  | String a s' => p a && all_of p s'
  end.

(** Whether [c] occurs in [s]. *)
Fixpoint contains (c : ascii) (s : string) : bool :=
  match s with
  | EmptyString => false
  | String a s' => Ascii.eqb a c || contains c s'
  end.

(** [name.starts_with(p)], used to state the prefix property. *)
Definition starts_with (s p : string) : bool := String.prefix p s.

End Str.

(** ** Suggestion kinds *)

(** [enum SymType : uint8_t], one bit per kind. *)
Inductive SymType : Type :=
| function | variable | channel | type | process | unknown.

Definition SymType_bits (k : SymType) : Z :=
  match k with
  | function => 1
  | variable => 2
  | channel => 4
  | type => 8
  | process => 16
  | unknown => 32
  end.

(** Conversion of an [int] to [uint8_t] (the parameter of
    [set_ignored_mask]): reduction modulo 2^8. *)
Definition to_uint8 (z : Z) : Z := z mod 256.

(** ** The part of the UTAP interface the resolver uses *)

Module UTAP.

(** [UTAP::Constants::kind_t]. The resolver names [TYPEDEF], [RECORD] and
    [INSTANCE]; the others are the kinds behind the type predicates. *)
Inductive kind_t : Type :=
| INT | BOOL | DOUBLE | STRING | CLOCK | CHANNEL | ARRAY | RECORD
| TYPEDEF | FUNCTION | FUNCTION_EXTERNAL | INSTANCE | LOCATION | CONSTANT
| VOID_TYPE.

Definition kind_eqb (a b : kind_t) : bool :=
  match a, b with
  | INT, INT | BOOL, BOOL | DOUBLE, DOUBLE | STRING, STRING
  | CLOCK, CLOCK | CHANNEL, CHANNEL | ARRAY, ARRAY | RECORD, RECORD
  | TYPEDEF, TYPEDEF | FUNCTION, FUNCTION
  | FUNCTION_EXTERNAL, FUNCTION_EXTERNAL | INSTANCE, INSTANCE
  | LOCATION, LOCATION | CONSTANT, CONSTANT | VOID_TYPE, VOID_TYPE => true
  | _, _ => false
  end.

(** [UTAP::type_t]: a kind and a sequence of labelled children. *)
#[warnings="-register-all"] Inductive type_t : Type :=
| Ty (kind : kind_t) (children : list (string * type_t)).

Definition get_kind (t : type_t) : kind_t :=
  match t with Ty k _ => k end.

Definition children (t : type_t) : list (string * type_t) :=
  match t with Ty _ cs => cs end.

(** [type.size()] *)
Definition size (t : type_t) : nat := List.length (children t).

(** [type.get(i)]; [None] when [i] is not below [size()], where the
    library's precondition fails. *)
Definition get (t : type_t) (i : nat) : option type_t :=
  option_map snd (nth_error (children t) i).

(** [type.get_label(i)] *)
Definition get_label (t : type_t) (i : nat) : option string :=
  option_map fst (nth_error (children t) i).

(** The predicates of [type_t]. Their code belongs to the UTAP library, so
    they are an interface here; [is_ t k] stands for [t.is(k)]. *)
Class TypeQueries : Type := {
  is_ : type_t -> kind_t -> bool;
  is_channel : type_t -> bool;
  is_clock : type_t -> bool;
  is_integral : type_t -> bool;
  is_double : type_t -> bool;
  is_string : type_t -> bool;
  is_record : type_t -> bool;
  is_function : type_t -> bool;
  is_function_external : type_t -> bool;
  is_array : type_t -> bool
}.

(** [UTAP::frame_t], compared by identity. *)
Definition frame_t : Type := N.

(** [UTAP::symbol_t] *)
Record symbol_t : Type := Symbol {
  get_name : string;
  get_type : type_t;
  get_frame : frame_t
}.

(** [UTAP::variable_t], [function_t] and [location_t]: only [uid] is read. *)
Record variable_t : Type := Variable_ { var_uid : symbol_t }.
Record function_t : Type := Function_ { fun_uid : symbol_t }.
Record location_t : Type := Location_ { loc_uid : symbol_t }.

(** [UTAP::template_t] *)
Record template_t : Type := Template {
  variables : list variable_t;
  functions : list function_t;
  locations : list location_t
}.

(** [UTAP::declarations_t]: the resolver reads its [frame]. *)
Record declarations_t : Type := Declarations { frame : frame_t }.

End UTAP.

Import UTAP.

(** ** Kind classifier *)

Section Classifier.
Context {Q : TypeQueries}.

(** [sym_type]. [None]: [type.get(0)] was called on a type without
    children. *)
Fixpoint sym_type (t : type_t) : option SymType :=
  if is_channel t then Some channel
  else if is_clock t || is_integral t || is_double t || is_string t || is_record t
  then Some variable
  else if is_ t TYPEDEF then Some type
  else if is_function t || is_function_external t then Some function
  else if is_array t then
    match t with
    | Ty _ ((_, elt) :: _) => sym_type elt
    | Ty _ [] => None
    end
  else Some unknown.

End Classifier.

(** ** Suggestions and the static vocabularies *)

(** [struct Suggestion]; the field the source calls [type] is [kind] here,
    as [type] is a value of [SymType]. *)
Record Suggestion : Type := Sug { name : string; kind : SymType }.

Definition guard_items : list Suggestion :=
  [Sug "true" unknown; Sug "false" unknown].

Definition queries_items : list Suggestion :=
  [Sug "int" type; Sug "true" unknown; Sug "false" unknown;
   Sug "forall" unknown; Sug "exists" unknown].

Definition parameter_items : list Suggestion :=
  [Sug "int" type; Sug "double" type; Sug "clock" type; Sug "chan" type;
   Sug "bool" type; Sug "broadcast" unknown; Sug "const" unknown;
   Sug "urgent" unknown].

Definition default_items : list Suggestion :=
  [Sug "int" type; Sug "double" type; Sug "clock" type; Sug "chan" type;
   Sug "bool" type; Sug "broadcast" unknown; Sug "const" unknown;
   Sug "urgent" unknown; Sug "void" unknown; Sug "meta" unknown;
   Sug "true" unknown; Sug "false" unknown; Sug "forall" unknown;
   Sug "exists" unknown; Sug "return" unknown; Sug "typedef" unknown;
   Sug "struct" unknown].

Definition builtin_functions : list Suggestion :=
  map (fun n => Sug n function)
    ["abs"; "fabs"; "fmod"; "fma"; "fmax"; "fmin"; "exp"; "exp2"; "expm1";
     "ln"; "log"; "log10"; "log2"; "log1p"; "pow"; "sqrt"; "cbrt"; "hypot";
     "sin"; "cos"; "tan"; "asin"; "acos"; "atan"; "atan2"; "sinh"; "cosh";
     "tanh"; "asinh"; "acosh"; "atanh"; "erf"; "erfc"; "tgamma"; "lgamma";
     "ceil"; "floor"; "trunc"; "round"; "fint"; "ldexp"; "ilogb"; "logb";
     "nextafter"; "copysign"; "signbit"; "random"; "random_normal";
     "random_poisson"; "random_arcsine"; "random_beta"; "random_gamma";
     "tri"; "random_weibull"].

(** ** Symbol predicates *)

Section SymbolPredicates.
Context {Q : TypeQueries}.

(** [is_struct]: the type has one child and that child is a record. *)
Definition is_struct (sym : symbol_t) : bool :=
  (size (get_type sym) =? 1)%nat
  && match get (get_type sym) 0 with
     | Some c => is_ c RECORD
     | None => false
     end.

Definition is_template (sym : symbol_t) : bool := is_ (get_type sym) INSTANCE.

End SymbolPredicates.

(** [is_digit]: [std::isdigit] on an [unsigned char], the decimal digits. *)
Definition is_digit (c : ascii) : bool :=
  let n := nat_of_ascii c in (48 <=? n)%nat && (n <=? 57)%nat.

(** [is_name_autogenerated]: the first three characters are [_id] and all
    the characters after them are digits. The second operand is evaluated
    only when the first holds, hence on a name of three characters or more. *)
Definition is_name_autogenerated (n : string) : bool :=
  String.eqb (Str.substr n 0 3) "_id" && Str.all_of is_digit (Str.substr_from n 3).

(** ** The result builder *)

Record ResultBuilder : Type := Builder {
  items : list Suggestion;
  prefix : string;
  type_filter_mask : Z
}.

(** [ResultBuilder{}]: value initialisation; the vector and the string are
    empty and the mask is zero. *)
Definition ResultBuilder_new : ResultBuilder :=
  {| items := []; prefix := ""; type_filter_mask := 0 |}.

(** The lambda [type_check] of [add_items], also the test of [add_item]. *)
Definition type_check (filter : Z) (k : SymType) : bool :=
  (Z.land filter (SymType_bits k) =? 0)%Z.

Definition push_back (rb : ResultBuilder) (l : list Suggestion) : ResultBuilder :=
  {| items := items rb ++ l; prefix := prefix rb;
     type_filter_mask := type_filter_mask rb |}.

(** [add_items]: [copy_if] of each container in turn, with the mask
    captured on entry. *)
Definition add_items (rb : ResultBuilder) (containers : list (list Suggestion))
  : ResultBuilder :=
  let filter := type_filter_mask rb in
  fold_left
    (fun r c => push_back r (List.filter (fun s => type_check filter (kind s)) c))
    containers rb.

Definition set_ignored_mask (rb : ResultBuilder) (ignore_mask : Z) : ResultBuilder :=
  {| items := items rb; prefix := prefix rb; type_filter_mask := ignore_mask |}.

(** The xpath suffix [label[@kind=...]] with the kind between double quotes. *)
Definition label_kind (k : string) : string :=
  "label[@kind=" ++ String "034"%char (k ++ String "034"%char "]").

Definition add_defaults (rb : ResultBuilder) (xpath : string) : ResultBuilder :=
  if Str.ends_with xpath "/queries!" then
    add_items rb [queries_items; builtin_functions]
  else if Str.ends_with xpath "/parameter!" then
    add_items rb [parameter_items]
  else if Str.ends_with xpath (label_kind "guard") then
    add_items rb [guard_items; builtin_functions]
  else
    add_items rb [default_items; builtin_functions].

Definition set_prefix (rb : ResultBuilder) (new_prefix : string) : ResultBuilder :=
  {| items := items rb; prefix := new_prefix;
     type_filter_mask := type_filter_mask rb |}.

Definition add_item (rb : ResultBuilder) (item : string) (k : SymType)
  : ResultBuilder :=
  if type_check (type_filter_mask rb) k then push_back rb [Sug item k] else rb.

(** [add_struct]: nothing for a type without children; a type whose kind
    is not [RECORD] is unwrapped to its first child; a record contributes
    one [variable] per label [get_label(i)], for [i] from 0 up to
    [size()], which is one per child in order. *)
Fixpoint add_struct (rb : ResultBuilder) (t : type_t) : ResultBuilder :=
  match t with
  | Ty _ [] => rb
  | Ty k (((_, c0) :: _) as cs) =>
      if negb (kind_eqb k RECORD) then add_struct rb c0
      else fold_left (fun r lc => add_item r (prefix r ++ fst lc) variable) cs rb
  end.

Definition add_template (rb : ResultBuilder) (templ : template_t) : ResultBuilder :=
  let rb1 :=
    fold_left (fun r v => add_item r (prefix r ++ get_name (var_uid v)) variable)
      (variables templ) rb in
  let rb2 :=
    fold_left (fun r f => add_item r (prefix r ++ get_name (fun_uid f)) function)
      (functions templ) rb1 in
  fold_left
    (fun r loc =>
       let n := get_name (loc_uid loc) in
       if negb (is_name_autogenerated n) then add_item r (prefix r ++ n) unknown
       else r)
    (locations templ) rb2.

Definition get_items (rb : ResultBuilder) : list Suggestion := items rb.

(** ** The [autocomplete] command *)

(** The request: [xpath], [offset] and the partial [identifier]. *)
Record Identifier : Type := Request {
  xpath : string;
  offset : N;
  identifier : string
}.

(** [TextRange] of a declaration. *)
Record TextRange : Type := Range { begOffset : N; endOffset : N }.

(** [UtapEntity]: what a dotted name resolves to, a symbol or a type. *)
Inductive UtapEntity : Type :=
| EntitySymbol (sym : symbol_t)
| EntityType (t : type_t).

(** Modelled from the spec: [navigate_xpath], [find_declaration],
    [find_process] (uls/utap_extension.h) and
    [DeclarationsWalker::visit_symbols] (uls/declarations.h) are not among the
    sources; a document is the answers of these four services (sections 4.4
    to 4.6 and 6 of the specification). [navigate_xpath] returns a reference
    to a declarations block, so an xpath that cannot be navigated ([None])
    leaves the call by an exception. [visit_symbols] lists the symbols the
    walker hands to its callback, in order, each with its source range. *)
Record Document : Type := Doc {
  navigate_xpath : string -> N -> option declarations_t;
  find_declaration : declarations_t -> string -> option UtapEntity;
  find_process : string -> option template_t;
  visit_symbols : declarations_t -> list (symbol_t * TextRange)
}.

(** How a call ends: with a value, or by a failure that nothing in the
    handler catches. *)
Inductive failure : Type :=
| UnknownContext   (* navigate_xpath could not resolve the xpath *)
| NoSuchChild.     (* type.get(0) on a type without children *)

Inductive outcome (A : Type) : Type :=
| Returned (a : A)
| Raised (e : failure).

Arguments Returned {A} a.
Arguments Raised {A} e.

Definition bind {A B : Type} (m : outcome A) (f : A -> outcome B) : outcome B :=
  match m with
  | Returned a => f a
  | Raised e => Raised e
  end.

Notation "x <- m ;; k" := (bind m (fun x => k))
  (at level 61, m at next level, right associativity).

(** A loop whose body may fail: the first failure ends it. *)
Fixpoint for_each {A S : Type} (body : S -> A -> outcome S) (l : list A) (s : S)
  : outcome S :=
  match l with
  | [] => Returned s
  | a :: l' => s' <- body s a ;; for_each body l' s'
  end.

(** [~k] on the promoted operand, then the conversion to [uint8_t]. *)
Definition all_but (admissible : Z) : Z := to_uint8 (Z.lnot admissible).

(** The chain of suffix tests that opens the handler. *)
Definition set_context_mask (results : ResultBuilder) (xp : string) : ResultBuilder :=
  if Str.ends_with xp "/parameter!" then
    set_ignored_mask results (all_but (SymType_bits type))
  else if Str.ends_with xp (label_kind "invariant") then
    set_ignored_mask results
      (all_but (Z.lor (SymType_bits variable) (SymType_bits function)))
  else if Str.ends_with xp (label_kind "exponentialrate") then
    set_ignored_mask results (all_but (SymType_bits variable))
  else if Str.ends_with xp (label_kind "select") then
    set_ignored_mask results (all_but (SymType_bits type))
  else if Str.ends_with xp (label_kind "guard") then
    set_ignored_mask results
      (all_but (Z.lor (SymType_bits variable) (SymType_bits function)))
  else if Str.ends_with xp (label_kind "synchronisation") then
    set_ignored_mask results (all_but (SymType_bits channel))
  else if Str.ends_with xp (label_kind "assignment") then
    set_ignored_mask results
      (all_but (Z.lor (SymType_bits variable) (SymType_bits function)))
  else results.

(** The mask of ignored kinds a request runs under. *)
Definition ignored_mask (xp : string) : Z :=
  type_filter_mask (set_context_mask ResultBuilder_new xp).

Section Handler.
Context {Q : TypeQueries}.

(** [is_symbol_visible] of the walker's callback. *)
Definition is_symbol_visible (id : Identifier) (decls : declarations_t)
  (symbol : symbol_t) (range : TextRange) : bool :=
  negb (N.eqb (get_frame symbol) (frame decls))
  || N.ltb (begOffset range) (offset id).

(** The callback handed to [visit_symbols]. *)
Definition visit_callback (id : Identifier) (decls : declarations_t)
  (use_templates : bool) (results : ResultBuilder) (v : symbol_t * TextRange)
  : outcome ResultBuilder :=
  let (symbol, range) := v in
  if is_symbol_visible id decls symbol range then
    if negb (is_template symbol) then
      match sym_type (get_type symbol) with
      | Some k => Returned (add_item results (get_name symbol) k)
      | None => Raised NoSuchChild
      end
    else if use_templates then
      Returned (add_item results (get_name symbol) process)
    else Returned results
  else Returned results.

(** The visitor applied to the entity a dotted head resolves to. *)
Definition visit_entity (doc : Document) (is_query : bool)
  (results : ResultBuilder) (entity : UtapEntity) : ResultBuilder :=
  match entity with
  | EntitySymbol sym =>
      if is_template sym && is_query then
        match find_process doc (get_name sym) with
        | Some proc => add_template results proc
        | None => results
        end
      else if is_struct sym then
        match get (get_type sym) 0 with
        | Some t0 => add_struct results t0
        | None => results   (* excluded by [is_struct] *)
        end
      else results
  | EntityType t => add_struct results t
  end.

(** The handler registered for [autocomplete]. *)
Definition autocomplete (doc : Document) (id : Identifier)
  : outcome (list Suggestion) :=
  let results := set_context_mask ResultBuilder_new (xpath id) in
  let is_query := String.eqb (xpath id) "/nta/queries!" in
  match navigate_xpath doc (xpath id) (offset id) with
  | None => Raised UnknownContext
  | Some decls =>
      match Str.find_last_of "." (identifier id) with
      | Some off =>
          match find_declaration doc decls (Str.substr (identifier id) 0 off) with
          | Some entity =>
              let results := set_prefix results (Str.substr (identifier id) 0 (off + 1)) in
              Returned (get_items (visit_entity doc is_query results entity))
          | None => Returned (get_items results)
          end
      | None =>
          let results := add_defaults results (xpath id) in
          let use_templates := is_query || String.eqb (xpath id) "/nta/system!" in
          results <- for_each (visit_callback id decls use_templates)
                       (visit_symbols doc decls) results ;;
          Returned (get_items results)
      end
  end.

End Handler.

(** ** The specification's side of the comparison *)

(** The suffixes that install a filter (section 4.3, the rows with a
    restricted admissible-kinds column). *)
Definition filtering_suffixes : list string :=
  ["/parameter!"; label_kind "invariant"; label_kind "exponentialrate";
   label_kind "select"; label_kind "guard"; label_kind "synchronisation";
   label_kind "assignment"].

Definition matches_filtering_suffix (xp : string) : bool :=
  existsb (Str.ends_with xp) filtering_suffixes.

(** The pattern of auto-generated location names: [_id] followed by one or
    more decimal digits. *)
Definition matches_id_digits (n : string) : bool :=
  match n with
  | String a (String b (String c (String d ds))) =>
      Ascii.eqb a "_" && Ascii.eqb b "i" && Ascii.eqb c "d"
      && is_digit d && Str.all_of is_digit ds
  | _ => false
  end.

(** The five static tables together. *)
Definition static_vocabulary : list Suggestion :=
  guard_items ++ queries_items ++ parameter_items ++ default_items
  ++ builtin_functions.

Section SpecSide.
Context {Q : TypeQueries}.

(** What a rule of section 4.1 answers: a kind, or the classification of
    the element type. *)
Inductive verdict : Type :=
| IsKind (k : SymType)
| OfElement.

(** The rules of section 4.1 in their order. *)
Definition classifier_rules : list ((type_t -> bool) * verdict) :=
  [ (is_channel, IsKind channel);
    (fun t => is_clock t || is_integral t || is_double t || is_string t
              || is_record t, IsKind variable);
    (fun t => is_ t TYPEDEF, IsKind type);
    (fun t => is_function t || is_function_external t, IsKind function);
    (is_array, OfElement) ].

(** First match wins. *)
Definition first_match (rules : list ((type_t -> bool) * verdict)) (t : type_t)
  : option verdict :=
  option_map snd (find (fun r => fst r t) rules).

(** The classifier as the specification words it; an array without an
    element type has no classification. *)
Fixpoint classify_spec (t : type_t) : option SymType :=
  match first_match classifier_rules t with
  | Some (IsKind k) => Some k
  | Some OfElement =>
      match t with
      | Ty _ ((_, elt) :: _) => classify_spec elt
      | Ty _ [] => None
      end
  | None => Some unknown
  end.

(** The document with another answer of the walker. *)
Definition with_visited (doc : Document)
  (f : declarations_t -> list (symbol_t * TextRange)) : Document :=
  {| navigate_xpath := navigate_xpath doc;
     find_declaration := find_declaration doc;
     find_process := find_process doc;
     visit_symbols := f |}.

(** The document whose walker passes over template instances. *)
Definition without_templates (doc : Document) : Document :=
  with_visited doc
    (fun d => List.filter (fun v => negb (is_template (fst v))) (visit_symbols doc d)).


End SpecSide.

(** ** What the builder's operations append

    The suggestions each operation offers to the filter, as lists; the
    properties below relate the operations to them. *)

(** The suggestions of a list that pass the mask. *)
Definition emit (mask : Z) (l : list Suggestion) : list Suggestion :=
  List.filter (fun s => type_check mask (kind s)) l.

(** The tables [add_defaults] seeds for an xpath. *)
Definition default_tables (xp : string) : list (list Suggestion) :=
  if Str.ends_with xp "/queries!" then [queries_items; builtin_functions]
  else if Str.ends_with xp "/parameter!" then [parameter_items]
  else if Str.ends_with xp (label_kind "guard") then [guard_items; builtin_functions]
  else [default_items; builtin_functions].

(** The labels [add_struct] reaches. *)
Fixpoint struct_labels (t : type_t) : list string :=
  match t with
  | Ty _ [] => []
  | Ty k (((_, c0) :: _) as cs) =>
      if negb (kind_eqb k RECORD) then struct_labels c0 else map fst cs
  end.

Definition struct_members (p : string) (t : type_t) : list Suggestion :=
  map (fun l => Sug (p ++ l) variable) (struct_labels t).

(** The members [add_template] offers. *)
Definition template_members (p : string) (templ : template_t) : list Suggestion :=
  (map (fun v => Sug (p ++ get_name (var_uid v)) variable) (variables templ)
   ++ map (fun f => Sug (p ++ get_name (fun_uid f)) function) (functions templ)
   ++ map (fun l => Sug (p ++ get_name (loc_uid l)) unknown)
        (List.filter (fun l => negb (is_name_autogenerated (get_name (loc_uid l))))
           (locations templ)))%list.

Section Offers.
Context {Q : TypeQueries}.

(** The members the visitor of a resolved entity offers. *)
Definition entity_members (doc : Document) (is_query : bool) (p : string)
  (entity : UtapEntity) : list Suggestion :=
  match entity with
  | EntitySymbol sym =>
      if is_template sym && is_query then
        match find_process doc (get_name sym) with
        | Some proc => template_members p proc
        | None => []
        end
      else if is_struct sym then
        match get (get_type sym) 0 with
        | Some t0 => struct_members p t0
        | None => []
        end
      else []
  | EntityType t => struct_members p t
  end.

(** What the walker's callback offers for one visited symbol. *)
Definition symbol_offer (id : Identifier) (decls : declarations_t)
  (use_templates : bool) (v : symbol_t * TextRange) : outcome (list Suggestion) :=
  let (symbol, range) := v in
  if is_symbol_visible id decls symbol range then
    if negb (is_template symbol) then
      match sym_type (get_type symbol) with
      | Some k => Returned [Sug (get_name symbol) k]
      | None => Raised NoSuchChild
      end
    else if use_templates then Returned [Sug (get_name symbol) process]
    else Returned []
  else Returned [].

End Offers.

(** The offers of a sequence of visits, up to the first failure. *)
Fixpoint gather {A B : Type} (f : A -> outcome (list B)) (l : list A)
  : outcome (list B) :=
  match l with
  | [] => Returned []
  | a :: l' => x <- f a ;; xs <- gather f l' ;; Returned (x ++ xs)%list
  end.

(** ** Serialisation of the result *)

(** The JSON values the serialisers build ([nlohmann::json]): null,
    strings, arrays and objects. *)
#[warnings="-register-all"] Inductive json : Type :=
| JNull
| JString (s : string)
| JArray (elements : list json)
| JObject (members : list (string * json)).

(** [Serializer<SymType>::serialize]; the [default] label answers for
    [unknown]. *)
Definition serialize_SymType (k : SymType) : json :=
  match k with
  | function => JString "function"
  | variable => JString "variable"
  | channel => JString "channel"
  | type => JString "type"
  | process => JString "process"
  | unknown => JString "unknown"
  end.

(** [json::push_back]: a null value becomes an array first; on a value
    that is neither null nor an array the call throws ([None]). *)
Definition json_push_back (j v : json) : option json :=
  match j with
  | JNull => Some (JArray [v])
  | JArray l => Some (JArray (l ++ [v]))
  | _ => None
  end.

(** The object built for one suggestion, members in key order. *)
Definition suggestion_object (item : Suggestion) : json :=
  JObject [("name", JString (name item)); ("type", serialize_SymType (kind item))].

(** [Serializer<std::vector<Suggestion>>::serialize]: [json_array] starts
    as the default-constructed value, null, and receives one object per
    item. *)
Definition serialize_Suggestions (items : list Suggestion) : option json :=
  fold_left
    (fun acc item =>
       match acc with
       | Some json_array => json_push_back json_array (suggestion_object item)
       | None => None
       end)
    items (Some JNull).

(** ** How an operation may change the builder *)

(** [rb'] is [rb] with suggestions appended that all pass the mask; the
    prefix and the mask are those of [rb]. *)
Definition appends_filtered (rb rb' : ResultBuilder) : Prop :=
  exists added,
    items rb' = (items rb ++ added)%list /\
    prefix rb' = prefix rb /\
    type_filter_mask rb' = type_filter_mask rb /\
    forall s, In s added -> type_check (type_filter_mask rb) (kind s) = true.

(** ** A concrete document *)

Module Sample.

(** A reading of the type predicates by kind, looking through [CONSTANT]
    prefixes; it serves to run the resolver on the document below. *)
Fixpoint has_kind (t : type_t) (k : kind_t) : bool :=
  kind_eqb (get_kind t) k
  || match t with
     | Ty CONSTANT ((_, c) :: _) => has_kind c k
     | _ => false
     end.

Definition queries : TypeQueries :=
  {| is_ := has_kind;
     is_channel := fun t => has_kind t CHANNEL;
     is_clock := fun t => has_kind t CLOCK;
     is_integral := fun t => has_kind t INT || has_kind t BOOL;
     is_double := fun t => has_kind t DOUBLE;
     is_string := fun t => has_kind t STRING;
     is_record := fun t => has_kind t RECORD;
     is_function := fun t => has_kind t FUNCTION;
     is_function_external := fun t => has_kind t FUNCTION_EXTERNAL;
     is_array := fun t => has_kind t ARRAY |}.

Definition t_int : type_t := Ty INT [].
Definition t_record : type_t := Ty RECORD [("a", t_int); ("b", t_int)].

Definition global_frame : frame_t := 0%N.
Definition proc_frame : frame_t := 1%N.

(** Global declarations:
    [int x; chan c; typedef int T; void f() {...} const struct {int a; int b;} s;
     int _id7; int late; P = Proc();] *)
Definition sym_x := Symbol "x" t_int global_frame.
Definition sym_c := Symbol "c" (Ty CHANNEL []) global_frame.
Definition sym_T := Symbol "T" (Ty TYPEDEF [("T", t_int)]) global_frame.
Definition sym_f := Symbol "f" (Ty FUNCTION [("", Ty VOID_TYPE [])]) global_frame.
Definition sym_s := Symbol "s" (Ty CONSTANT [("", t_record)]) global_frame.
Definition sym_id7 := Symbol "_id7" t_int global_frame.
Definition sym_late := Symbol "late" t_int global_frame.
Definition sym_P := Symbol "P" (Ty INSTANCE []) global_frame.

(** Local declarations of the template [Proc]: [int y;]. *)
Definition sym_y := Symbol "y" t_int proc_frame.

Definition globals : list (symbol_t * TextRange) :=
  [(sym_x, Range 0 6); (sym_c, Range 7 14); (sym_T, Range 15 29);
   (sym_f, Range 30 45); (sym_s, Range 46 80); (sym_id7, Range 81 90);
   (sym_late, Range 500 509); (sym_P, Range 510 523)].

Definition locals : list (symbol_t * TextRange) := [(sym_y, Range 0 6)].

(** The template [Proc]: a variable [y], a function [g], an unnamed
    location, a location [Idle] and a location named [_id]. *)
Definition proc : template_t :=
  {| variables := [Variable_ sym_y];
     functions := [Function_ (Symbol "g" (Ty FUNCTION [("", t_int)]) proc_frame)];
     locations :=
       [Location_ (Symbol "_id0" (Ty LOCATION []) proc_frame);
        Location_ (Symbol "Idle" (Ty LOCATION []) proc_frame);
        Location_ (Symbol "_id" (Ty LOCATION []) proc_frame)] |}.

Definition doc : Document :=
  {| navigate_xpath := fun xp _ =>
       if String.prefix "/nta/template[1]/" xp then Some (Declarations proc_frame)
       else if existsb (String.eqb xp)
                 ["/nta/declaration!"; "/nta/queries!"; "/nta/system!"]
       then Some (Declarations global_frame)
       else None;
     find_declaration := fun _ head =>
       if String.eqb head "s" then Some (EntitySymbol sym_s)
       else if String.eqb head "P" then Some (EntitySymbol sym_P)
       else if String.eqb head "T" then Some (EntityType t_int)
       else None;
     find_process := fun n => if String.eqb n "P" then Some proc else None;
     visit_symbols := fun d =>
       if N.eqb (frame d) proc_frame then (locals ++ globals)%list else globals |}.

Definition sync_xpath : string :=
  "/nta/template[1]/transition[1]/" ++ label_kind "synchronisation".

Definition guard_xpath : string :=
  "/nta/template[1]/transition[1]/" ++ label_kind "guard".

End Sample.

(** ** A document with record types *)

Module RecordSample.

(** [typedef struct { int a; int b; } S;] and the array type [S[4]]. *)
Definition t_S : type_t := Sample.t_record.
Definition t_S_array : type_t := Ty ARRAY [("", t_S); ("", Ty INT [])].

(** The sample document, where the names [S] and [Ss] resolve to the two
    types. *)
Definition doc : Document :=
  {| navigate_xpath := navigate_xpath Sample.doc;
     find_declaration := fun d head =>
       if String.eqb head "S" then Some (EntityType t_S)
       else if String.eqb head "Ss" then Some (EntityType t_S_array)
       else find_declaration Sample.doc d head;
     find_process := find_process Sample.doc;
     visit_symbols := visit_symbols Sample.doc |}.

End RecordSample.

(** * Properties *)

(** ** Facts about the string operations *)

Module StrFacts.
Import Str.

Lemma app_nil_r (s : string) : s ++ "" = s.
Proof. induction s as [|a s IH]; simpl; [reflexivity | now rewrite IH]. Qed.

Lemma app_assoc (a b c : string) : (a ++ b) ++ c = a ++ (b ++ c).
Proof. induction a as [|x a IH]; simpl; [reflexivity | now rewrite IH]. Qed.

Lemma length_app (a b : string) :
  String.length (a ++ b) = (String.length a + String.length b)%nat.
Proof. induction a as [|x a IH]; simpl; [reflexivity | now rewrite IH]. Qed.

Lemma app_inv_head (p a b : string) : p ++ a = p ++ b -> a = b.
Proof.
  induction p as [|x p IH]; simpl; intros H; [exact H|].
  injection H as H. now apply IH.
Qed.

Lemma substring_0_all (s : string) : substring 0 (String.length s) s = s.
Proof. induction s as [|a s IH]; simpl; [reflexivity | now rewrite IH]. Qed.

Lemma substring_0_app (p x : string) :
  substring 0 (String.length p) (p ++ x) = p.
Proof.
  induction p as [|a p IH]; simpl.
  - destruct x; reflexivity.
  - now rewrite IH.
Qed.

Lemma substring_skip_app (p x : string) (n : nat) :
  substring (String.length p) n (p ++ x) = substring 0 n x.
Proof. induction p as [|a p IH]; simpl; [reflexivity | exact IH]. Qed.

Lemma substring_split (s : string) (n : nat) :
  (n <= String.length s)%nat ->
  s = substring 0 n s ++ substring n (String.length s - n) s.
Proof.
  revert n; induction s as [|a s IH]; intros [|n] H; simpl in *.
  - reflexivity.
  - lia.
  - now rewrite substring_0_all.
  - f_equal. apply IH. lia.
Qed.

(** [ends_with] holds exactly of the strings that end in [x]. *)
Lemma ends_with_iff (s x : string) :
  ends_with s x = true <-> exists p, s = p ++ x.
Proof.
  unfold ends_with; split.
  - intros H. apply andb_true_iff in H as [Hl He].
    apply Nat.leb_le in Hl. apply String.eqb_eq in He.
    exists (substring 0 (String.length s - String.length x) s).
    pose proof (substring_split s (String.length s - String.length x)) as Hs.
    replace (String.length s - (String.length s - String.length x))%nat
      with (String.length x) in Hs by lia.
    rewrite He in Hs. apply Hs. lia.
  - intros [p ->]. rewrite length_app. apply andb_true_iff; split.
    + apply Nat.leb_le. lia.
    + replace (String.length p + String.length x - String.length x)%nat
        with (String.length p) by lia.
      rewrite substring_skip_app, substring_0_all. apply String.eqb_refl.
Qed.

Lemma app_eq_app (p q x y : string) :
  p ++ x = q ++ y ->
  exists l, (p = q ++ l /\ y = l ++ x) \/ (q = p ++ l /\ x = l ++ y).
Proof.
  revert q; induction p as [|a p IH]; intros q H; simpl in H.
  - exists q. right. now split.
  - destruct q as [|b q]; simpl in H.
    + exists (String a p). left. now split.
    + injection H as -> H. destruct (IH _ H) as [l [[-> ->]|[-> ->]]];
        exists l; [left | right]; now split.
Qed.

(** Two suffixes of one string: one is a suffix of the other. *)
Lemma ends_with_comparable (s x y : string) :
  ends_with s x = true -> ends_with s y = true ->
  ends_with x y = true \/ ends_with y x = true.
Proof.
  intros Hx Hy.
  apply ends_with_iff in Hx as [p Hp]. apply ends_with_iff in Hy as [q Hq].
  rewrite Hp in Hq. destruct (app_eq_app _ _ _ _ Hq) as [l [[_ H]|[_ H]]].
  - right. apply ends_with_iff. now exists l.
  - left. apply ends_with_iff. now exists l.
Qed.

Lemma ends_with_exclusive (s x y : string) :
  ends_with x y = false -> ends_with y x = false ->
  ends_with s x = true -> ends_with s y = false.
Proof.
  intros Hxy Hyx Hx. destruct (ends_with s y) eqn:Hy; [|reflexivity].
  destruct (ends_with_comparable _ _ _ Hx Hy); congruence.
Qed.

Lemma starts_with_app (p x : string) : starts_with (p ++ x) p = true.
Proof.
  unfold starts_with. induction p as [|a p IH]; simpl.
  - destruct x; reflexivity.
  - rewrite IH. destruct (ascii_dec a a); [reflexivity | contradiction].
Qed.

Lemma contains_app (c : ascii) (a b : string) :
  contains c (a ++ b) = contains c a || contains c b.
Proof.
  induction a as [|x a IH]; simpl; [reflexivity|].
  now rewrite IH, orb_assoc.
Qed.

Lemma find_last_of_none (c : ascii) (s : string) :
  find_last_of c s = None <-> contains c s = false.
Proof.
  induction s as [|a s IH]; simpl; [tauto|].
  destruct (find_last_of c s) as [k|].
  - split; [discriminate|]. intros H. apply orb_false_iff in H as [_ H].
    apply IH in H. discriminate.
  - destruct IH as [IH _]. rewrite (IH eq_refl), orb_false_r.
    destruct (Ascii.eqb a c); split; congruence.
Qed.

(** The index [find_last_of] returns cuts the string into a head, the
    character and a rest free of it. *)
Lemma find_last_of_split (c : ascii) (s : string) (k : nat) :
  find_last_of c s = Some k ->
  exists rest,
    substr s 0 (k + 1) = substr s 0 k ++ String c "" /\
    s = substr s 0 (k + 1) ++ rest /\
    contains c rest = false.
Proof.
  unfold substr. revert k; induction s as [|a s IH]; intros k H; simpl in H.
  - discriminate.
  - destruct (find_last_of c s) as [j|] eqn:Hj.
    + injection H as <-. destruct (IH j eq_refl) as [rest [H1 [H2 H3]]].
      exists rest. simpl. rewrite H1. repeat split; [|exact H3].
      rewrite <- H1. simpl. now rewrite <- H2.
    + destruct (Ascii.eqb a c) eqn:Hac; [|discriminate].
      injection H as <-. apply Ascii.eqb_eq in Hac as ->.
      exists s. simpl. repeat split.
      * destruct s; reflexivity.
      * destruct s; reflexivity.
      * now apply find_last_of_none.
Qed.

End StrFacts.

(** ** The builder's operations as appends of filtered lists *)

Lemma push_back_nil (rb : ResultBuilder) : push_back rb [] = rb.
Proof. destruct rb; unfold push_back; simpl. now rewrite List.app_nil_r. Qed.

Lemma push_back_twice (rb : ResultBuilder) (a b : list Suggestion) :
  push_back (push_back rb a) b = push_back rb (a ++ b).
Proof. unfold push_back; simpl. now rewrite List.app_assoc. Qed.

Lemma emit_app (m : Z) (a b : list Suggestion) :
  emit m (a ++ b) = (emit m a ++ emit m b)%list.
Proof. apply List.filter_app. Qed.

Lemma emit_In (m : Z) (l : list Suggestion) (s : Suggestion) :
  In s (emit m l) <-> In s l /\ type_check m (kind s) = true.
Proof. apply List.filter_In. Qed.

Lemma emit_zero (l : list Suggestion) : emit 0 l = l.
Proof.
  unfold emit. induction l as [|s l IH]; simpl; [reflexivity|].
  now rewrite IH.
Qed.

Lemma add_item_push (rb : ResultBuilder) (n : string) (k : SymType) :
  add_item rb n k = push_back rb (emit (type_filter_mask rb) [Sug n k]).
Proof.
  unfold add_item, emit; simpl.
  destruct (type_check (type_filter_mask rb) k); [reflexivity|].
  now rewrite push_back_nil.
Qed.

(** A loop whose every turn appends a list that depends on the mask and
    the prefix only appends the concatenation of these lists. *)
Lemma fold_push {A : Type} (step : ResultBuilder -> A -> ResultBuilder)
  (g : A -> list Suggestion) (m : Z) (p : string) :
  (forall r a, type_filter_mask r = m -> prefix r = p ->
               step r a = push_back r (emit m (g a))) ->
  forall l rb, type_filter_mask rb = m -> prefix rb = p ->
    fold_left step l rb = push_back rb (emit m (flat_map g l)).
Proof.
  intros Hstep. induction l as [|a l IH]; intros rb Hm Hp; simpl.
  - now rewrite push_back_nil.
  - rewrite (Hstep rb a Hm Hp), IH by (simpl; assumption).
    now rewrite push_back_twice, emit_app.
Qed.

Lemma flat_map_singleton {A B : Type} (f : A -> B) (l : list A) :
  flat_map (fun a => [f a]) l = map f l.
Proof. induction l as [|a l IH]; simpl; [reflexivity | now rewrite IH]. Qed.

Lemma add_items_push (rb : ResultBuilder) (cs : list (list Suggestion)) :
  add_items rb cs = push_back rb (emit (type_filter_mask rb) (List.concat cs)).
Proof.
  unfold add_items.
  rewrite (fold_push _ (fun c => c) (type_filter_mask rb) (prefix rb));
    [|reflexivity..].
  now rewrite List.flat_map_concat_map, List.map_id.
Qed.

Lemma add_defaults_push (rb : ResultBuilder) (xp : string) :
  add_defaults rb xp
  = push_back rb (emit (type_filter_mask rb) (List.concat (default_tables xp))).
Proof.
  unfold add_defaults, default_tables.
  repeat match goal with |- context [if ?b then _ else _] => destruct b end;
    apply add_items_push.
Qed.

(** The labels the loop of [add_struct] reads by index are the first
    components of the children. *)
Lemma get_label_children (t : type_t) (i : nat) :
  get_label t i = nth_error (map fst (children t)) i.
Proof. unfold get_label. now rewrite List.nth_error_map. Qed.

Lemma add_struct_push (rb : ResultBuilder) (t : type_t) :
  add_struct rb t
  = push_back rb (emit (type_filter_mask rb) (struct_members (prefix rb) t)).
Proof.
  unfold struct_members. revert rb t.
  fix IH 2. intros rb [k cs].
  destruct cs as [|[l0 c0] cs'].
  - simpl. now rewrite push_back_nil.
  - cbn [add_struct struct_labels].
    destruct (negb (kind_eqb k RECORD)).
    + apply IH.
    + rewrite (fold_push _ (fun lc => [Sug (prefix rb ++ fst lc) variable])
                 (type_filter_mask rb) (prefix rb)).
      * now rewrite flat_map_singleton, List.map_map.
      * intros r a Hm <-. rewrite add_item_push. now rewrite Hm.
      * reflexivity.
      * reflexivity.
Qed.

Lemma add_template_push (rb : ResultBuilder) (templ : template_t) :
  add_template rb templ
  = push_back rb (emit (type_filter_mask rb) (template_members (prefix rb) templ)).
Proof.
  unfold add_template, template_members.
  set (m := type_filter_mask rb). set (p := prefix rb).
  rewrite (fold_push _ (fun v => [Sug (p ++ get_name (var_uid v)) variable]) m p);
    [|intros r a <- <-; apply add_item_push | reflexivity..].
  rewrite (fold_push _ (fun f => [Sug (p ++ get_name (fun_uid f)) function]) m p);
    [|intros r a <- <-; apply add_item_push | reflexivity..].
  rewrite (fold_push _
             (fun l => if negb (is_name_autogenerated (get_name (loc_uid l)))
                       then [Sug (p ++ get_name (loc_uid l)) unknown] else []) m p);
    [| |reflexivity..].
  - rewrite !push_back_twice, !emit_app, !flat_map_singleton. do 3 f_equal.
    induction (locations templ) as [|l ls IH]; simpl; [reflexivity|].
    destruct (negb (is_name_autogenerated (get_name (loc_uid l)))); simpl;
      now rewrite IH.
  - intros r a <- <-.
    destruct (negb (is_name_autogenerated (get_name (loc_uid a)))).
    + apply add_item_push.
    + simpl. now rewrite push_back_nil.
Qed.

Section HandlerFacts.
Context {Q : TypeQueries}.

Lemma visit_entity_push (doc : Document) (q : bool) (rb : ResultBuilder)
  (e : UtapEntity) :
  visit_entity doc q rb e
  = push_back rb (emit (type_filter_mask rb) (entity_members doc q (prefix rb) e)).
Proof.
  destruct e as [sym|t]; simpl; [|apply add_struct_push].
  destruct (is_template sym && q).
  - destruct (find_process doc (get_name sym));
      [apply add_template_push | now rewrite push_back_nil].
  - destruct (is_struct sym); [|now rewrite push_back_nil].
    destruct (get (get_type sym) 0);
      [apply add_struct_push | now rewrite push_back_nil].
Qed.

Lemma visit_callback_offer (id : Identifier) (decls : declarations_t)
  (ut : bool) (rb : ResultBuilder) (v : symbol_t * TextRange) :
  visit_callback id decls ut rb v
  = (l <- symbol_offer id decls ut v ;;
     Returned (push_back rb (emit (type_filter_mask rb) l))).
Proof.
  destruct v as [symbol range]; unfold visit_callback, symbol_offer.
  destruct (is_symbol_visible id decls symbol range); simpl;
    [|now rewrite push_back_nil].
  destruct (negb (is_template symbol)); simpl.
  - destruct (sym_type (get_type symbol)); simpl;
      [now rewrite add_item_push | reflexivity].
  - destruct ut; simpl; [now rewrite add_item_push | now rewrite push_back_nil].
Qed.

Lemma for_each_visit (id : Identifier) (decls : declarations_t) (ut : bool)
  (vs : list (symbol_t * TextRange)) (rb : ResultBuilder) :
  for_each (visit_callback id decls ut) vs rb
  = (l <- gather (symbol_offer id decls ut) vs ;;
     Returned (push_back rb (emit (type_filter_mask rb) l))).
Proof.
  revert rb; induction vs as [|v vs IH]; intros rb; simpl.
  - now rewrite push_back_nil.
  - rewrite visit_callback_offer.
    destruct (symbol_offer id decls ut v) as [x|e]; simpl; [|reflexivity].
    rewrite IH. simpl.
    destruct (gather (symbol_offer id decls ut) vs) as [xs|e]; simpl;
      [|reflexivity].
    now rewrite push_back_twice, emit_app.
Qed.

End HandlerFacts.

(** The builder the handler starts from: no item, no prefix, the mask of
    the context. *)
Lemma set_context_mask_new (xp : string) :
  set_context_mask ResultBuilder_new xp
  = {| items := []; prefix := ""; type_filter_mask := ignored_mask xp |}.
Proof.
  unfold ignored_mask, set_context_mask.
  repeat match goal with |- context [if ?b then _ else _] => destruct b end;
    reflexivity.
Qed.

Section HandlerShape.
Context {Q : TypeQueries}.

(** The handler on a dotted identifier. *)
Lemma autocomplete_dotted (doc : Document) (id : Identifier)
  (decls : declarations_t) (off : nat) :
  navigate_xpath doc (xpath id) (offset id) = Some decls ->
  Str.find_last_of "." (identifier id) = Some off ->
  autocomplete doc id
  = Returned
      match find_declaration doc decls (Str.substr (identifier id) 0 off) with
      | Some e =>
          emit (ignored_mask (xpath id))
            (entity_members doc (String.eqb (xpath id) "/nta/queries!")
               (Str.substr (identifier id) 0 (off + 1)) e)
      | None => []
      end.
Proof.
  intros Hn Hf. unfold autocomplete. rewrite Hn, Hf, set_context_mask_new.
  destruct (find_declaration doc decls _); [|reflexivity].
  now rewrite visit_entity_push.
Qed.

(** The handler on an identifier without a dot. *)
Lemma autocomplete_plain (doc : Document) (id : Identifier)
  (decls : declarations_t) :
  navigate_xpath doc (xpath id) (offset id) = Some decls ->
  Str.find_last_of "." (identifier id) = None ->
  autocomplete doc id
  = (l <- gather
            (symbol_offer id decls
               (String.eqb (xpath id) "/nta/queries!"
                || String.eqb (xpath id) "/nta/system!"))
            (visit_symbols doc decls) ;;
     Returned (emit (ignored_mask (xpath id))
                 (List.concat (default_tables (xpath id)))
               ++ emit (ignored_mask (xpath id)) l)%list).
Proof.
  intros Hn Hf. unfold autocomplete. rewrite Hn, Hf, set_context_mask_new.
  rewrite add_defaults_push, for_each_visit. simpl.
  destruct (gather _ _); reflexivity.
Qed.

End HandlerShape.

(** ** Facts about [gather] *)

Lemma gather_In {A B : Type} (f : A -> outcome (list B)) (vs : list A)
  (l : list B) (x : B) :
  gather f vs = Returned l -> In x l ->
  exists v lv, In v vs /\ f v = Returned lv /\ In x lv.
Proof.
  revert l; induction vs as [|v vs IH]; simpl; intros l H Hx.
  - injection H as <-. contradiction.
  - destruct (f v) as [lv|e] eqn:Hv; simpl in H; [|discriminate].
    destruct (gather f vs) as [xs|e]; simpl in H; [|discriminate].
    injection H as <-. apply in_app_or in Hx as [Hx|Hx].
    + exists v, lv. auto.
    + destruct (IH xs eq_refl Hx) as [v' [lv' [? [? ?]]]].
      exists v', lv'. auto.
Qed.

Lemma gather_incl {A B : Type} (f : A -> outcome (list B)) (vs : list A)
  (l : list B) (v : A) :
  gather f vs = Returned l -> In v vs ->
  exists lv, f v = Returned lv /\ incl lv l.
Proof.
  revert l; induction vs as [|a vs IH]; simpl; intros l H Hv; [contradiction|].
  destruct (f a) as [la|e] eqn:Ha; simpl in H; [|discriminate].
  destruct (gather f vs) as [xs|e]; simpl in H; [|discriminate].
  injection H as <-. destruct Hv as [->|Hv].
  - exists la. split; [assumption | apply incl_appl, incl_refl].
  - destruct (IH xs eq_refl Hv) as [lv [? ?]].
    exists lv. split; [assumption | now apply incl_appr].
Qed.

(** Visits that offer nothing can be left out. *)
Lemma gather_filter {A B : Type} (f : A -> outcome (list B)) (p : A -> bool)
  (vs : list A) :
  (forall v, p v = false -> f v = Returned []) ->
  gather f (List.filter p vs) = gather f vs.
Proof.
  intros Hp. induction vs as [|v vs IH]; simpl; [reflexivity|].
  destruct (p v) eqn:Hv; simpl.
  - now rewrite IH.
  - rewrite (Hp v Hv), IH. simpl. now destruct (gather f vs).
Qed.

(** ** The mask of a context *)

Lemma matches_filtering_suffix_false (xp : string) :
  matches_filtering_suffix xp = false ->
  Forall (fun x => Str.ends_with xp x = false) filtering_suffixes.
Proof.
  unfold matches_filtering_suffix. intros H. apply Forall_forall. intros x Hx.
  destruct (Str.ends_with xp x) eqn:E; [|reflexivity].
  assert (existsb (Str.ends_with xp) filtering_suffixes = true)
    by (apply existsb_exists; eauto).
  congruence.
Qed.

Lemma ignored_mask_unfiltered (xp : string) :
  matches_filtering_suffix xp = false -> ignored_mask xp = 0%Z.
Proof.
  intros H. apply matches_filtering_suffix_false in H.
  unfold filtering_suffixes in H.
  repeat match goal with
         | H : Forall _ (_ :: _) |- _ => inversion H; clear H; subst
         end.
  unfold ignored_mask, set_context_mask.
  repeat match goal with H : Str.ends_with _ _ = false |- _ => rewrite H; clear H end.
  reflexivity.
Qed.

Lemma ignored_mask_parameter (xp : string) :
  Str.ends_with xp "/parameter!" = true -> ignored_mask xp = 247%Z.
Proof.
  intros H. unfold ignored_mask, set_context_mask. now rewrite H.
Qed.

Lemma ignored_mask_synchronisation (xp : string) :
  Str.ends_with xp (label_kind "synchronisation") = true -> ignored_mask xp = 251%Z.
Proof.
  intros H. unfold ignored_mask, set_context_mask.
  pose proof (fun y a b =>
    StrFacts.ends_with_exclusive xp (label_kind "synchronisation") y a b H) as E.
  rewrite (E "/parameter!" eq_refl eq_refl),
    (E (label_kind "invariant") eq_refl eq_refl),
    (E (label_kind "exponentialrate") eq_refl eq_refl),
    (E (label_kind "select") eq_refl eq_refl),
    (E (label_kind "guard") eq_refl eq_refl), H.
  reflexivity.
Qed.

Lemma only_type_passes_247 (k : SymType) : type_check 247 k = true -> k = type.
Proof. destruct k; simpl; (reflexivity || discriminate). Qed.

Lemma only_channel_passes_251 (k : SymType) : type_check 251 k = true -> k = channel.
Proof. destruct k; simpl; (reflexivity || discriminate). Qed.

Lemma type_check_land (m : Z) (k : SymType) :
  type_check m k = true <-> Z.land m (SymType_bits k) = 0%Z.
Proof. unfold type_check. apply Z.eqb_eq. Qed.

(** ** C1 *)

(** C1. A freshly constructed builder has mask 0 and an empty prefix. For
    every xpath that ends in none of the filtering suffixes, and so for the
    exact paths [/nta/queries!] and [/nta/system!], the builder the handler
    works with has mask 0; under that mask [add_item] appends whatever the
    kind, and [add_items] appends its containers whole. *)
Theorem C1_unfiltered_contexts (xp : string) :
  matches_filtering_suffix xp = false ->
  type_filter_mask ResultBuilder_new = 0%Z /\
  prefix ResultBuilder_new = "" /\
  matches_filtering_suffix "/nta/queries!" = false /\
  matches_filtering_suffix "/nta/system!" = false /\
  type_filter_mask (set_context_mask ResultBuilder_new xp) = 0%Z /\
  (forall rb n k, type_filter_mask rb = ignored_mask xp ->
     add_item rb n k = push_back rb [Sug n k]) /\
  (forall rb cs, type_filter_mask rb = ignored_mask xp ->
     add_items rb cs = push_back rb (List.concat cs)).
Proof.
  intros H. pose proof (ignored_mask_unfiltered xp H) as Hm.
  repeat split; try reflexivity.
  - exact Hm.
  - intros rb n k Hrb. rewrite add_item_push, Hrb, Hm. now rewrite emit_zero.
  - intros rb cs Hrb. rewrite add_items_push, Hrb, Hm. now rewrite emit_zero.
Qed.

Lemma C1_unfiltered_contexts_witness :
  matches_filtering_suffix "/nta/declaration!" = false /\
  type_filter_mask (set_context_mask ResultBuilder_new "/nta/declaration!") = 0%Z.
Proof.
  split; [reflexivity|].
  apply (C1_unfiltered_contexts "/nta/declaration!"). reflexivity.
Defined.

(** ** Where a returned suggestion comes from *)

Section Origin.
Context {Q : TypeQueries}.

(** Every returned suggestion passed the mask of the context, and is a
    member of the resolved entity (dotted identifier), or else a default or
    the offer of a visited symbol. *)
Lemma returned_origin (doc : Document) (id : Identifier)
  (l : list Suggestion) (s : Suggestion) :
  autocomplete doc id = Returned l -> In s l ->
  type_check (ignored_mask (xpath id)) (kind s) = true /\
  exists decls, navigate_xpath doc (xpath id) (offset id) = Some decls /\
    ((exists off e,
        Str.find_last_of "." (identifier id) = Some off /\
        find_declaration doc decls (Str.substr (identifier id) 0 off) = Some e /\
        In s (entity_members doc (String.eqb (xpath id) "/nta/queries!")
                (Str.substr (identifier id) 0 (off + 1)) e))
     \/ (Str.find_last_of "." (identifier id) = None /\
         (In s (List.concat (default_tables (xpath id)))
          \/ exists v lv,
               In v (visit_symbols doc decls) /\
               symbol_offer id decls
                 (String.eqb (xpath id) "/nta/queries!"
                  || String.eqb (xpath id) "/nta/system!") v = Returned lv /\
               In s lv))).
Proof.
  intros H Hs.
  destruct (navigate_xpath doc (xpath id) (offset id)) as [decls|] eqn:Hn;
    [|unfold autocomplete in H; rewrite Hn in H; discriminate].
  destruct (Str.find_last_of "." (identifier id)) as [off|] eqn:Hf.
  - rewrite (autocomplete_dotted doc id decls off Hn Hf) in H.
    injection H as <-.
    destruct (find_declaration doc decls _) as [e|] eqn:He; [|contradiction].
    apply emit_In in Hs as [Hs Hk]. split; [exact Hk|].
    exists decls. split; [reflexivity|]. left. exists off, e. auto.
  - rewrite (autocomplete_plain doc id decls Hn Hf) in H.
    destruct (gather _ _) as [offers|e] eqn:Hg; simpl in H; [|discriminate].
    injection H as <-. apply in_app_or in Hs as [Hs|Hs];
      apply emit_In in Hs as [Hs Hk]; (split; [exact Hk|]);
      exists decls; (split; [reflexivity|]); right; (split; [reflexivity|]).
    + now left.
    + right. destruct (gather_In _ _ _ _ Hg Hs) as [v [lv [? [? ?]]]].
      exists v, lv. auto.
Qed.

(** ** C2 *)

(** C2 (filter soundness). Every suggestion [s] of a returned list has no
    bit in common with the ignored-kinds mask of the request's xpath; under an
    xpath ending in [/parameter!] its kind is [type], under one ending in the
    synchronisation label its kind is [channel]. *)
Theorem C2_filter_soundness (doc : Document) (id : Identifier)
  (l : list Suggestion) (s : Suggestion) :
  autocomplete doc id = Returned l -> In s l ->
  Z.land (ignored_mask (xpath id)) (SymType_bits (kind s)) = 0%Z /\
  (Str.ends_with (xpath id) "/parameter!" = true -> kind s = type) /\
  (Str.ends_with (xpath id) (label_kind "synchronisation") = true ->
   kind s = channel).
Proof.
  intros H Hs. destruct (returned_origin doc id l s H Hs) as [Hk _].
  split; [now apply type_check_land|]. split; intros Hx.
  - rewrite (ignored_mask_parameter _ Hx) in Hk. now apply only_type_passes_247.
  - rewrite (ignored_mask_synchronisation _ Hx) in Hk.
    now apply only_channel_passes_251.
Qed.

End Origin.

Lemma C2_filter_soundness_witness :
  autocomplete (Q := Sample.queries) Sample.doc (Request Sample.sync_xpath 0 "")
  = Returned [Sug "c" channel] /\
  In (Sug "c" channel) [Sug "c" channel] /\
  Z.land (ignored_mask Sample.sync_xpath) (SymType_bits channel) = 0%Z.
Proof.
  assert (E : autocomplete (Q := Sample.queries) Sample.doc
                (Request Sample.sync_xpath 0 "") = Returned [Sug "c" channel])
    by reflexivity.
  assert (I : In (Sug "c" channel) [Sug "c" channel]) by (left; reflexivity).
  split; [exact E|]. split; [exact I|].
  exact (proj1 (C2_filter_soundness (Q := Sample.queries) Sample.doc
                  (Request Sample.sync_xpath 0 "") _ _ E I)).
Defined.

(** ** Kinds of the offers *)

Lemma default_tables_kinds (xp : string) (s : Suggestion) :
  In s (List.concat (default_tables xp)) ->
  In s static_vocabulary /\ kind s <> process.
Proof.
  intros H.
  assert (V : In s static_vocabulary).
  { unfold static_vocabulary. unfold default_tables in H.
    repeat match type of H with context [if ?b then _ else _] => destruct b end;
      cbn [List.concat] in H; rewrite List.app_nil_r in H;
      rewrite ?in_app_iff in *; tauto. }
  split; [exact V|].
  assert (F : Forall (fun s => kind s <> process) static_vocabulary)
    by (repeat constructor; discriminate).
  exact (proj1 (Forall_forall _ _) F s V).
Qed.

Lemma struct_members_kind (p : string) (t : type_t) (s : Suggestion) :
  In s (struct_members p t) -> kind s = variable /\ exists x, name s = p ++ x.
Proof.
  unfold struct_members. intros H. apply in_map_iff in H as [x [<- _]].
  split; [reflexivity | now exists x].
Qed.

Lemma template_members_kind (p : string) (templ : template_t) (s : Suggestion) :
  In s (template_members p templ) ->
  kind s <> process /\ (exists x, name s = p ++ x) /\
  (kind s = unknown ->
   exists x, name s = p ++ x /\ is_name_autogenerated x = false).
Proof.
  unfold template_members. intros H.
  apply in_app_or in H as [H|H]; [|apply in_app_or in H as [H|H]];
    apply in_map_iff in H as [x [<- Hx]]; simpl;
    (split; [discriminate|]); (split; [eexists; reflexivity|]);
    try discriminate.
  intros _. apply List.filter_In in Hx as [_ Hx].
  eexists; split; [reflexivity|]. now apply negb_true_iff.
Qed.

Section OfferKinds.
Context {Q : TypeQueries}.

Lemma sym_type_not_process (t : type_t) (k : SymType) :
  sym_type t = Some k -> k <> process.
Proof.
  revert t. fix IH 1. intros [kd cs]. cbn [sym_type].
  repeat match goal with
         | |- context [if ?b then _ else _] => destruct b
         end; try (intros H Hp; rewrite Hp in H; discriminate).
  destruct cs as [|[lb elt] cs']; [discriminate | apply IH].
Qed.

Lemma entity_members_kind (doc : Document) (q : bool) (p : string)
  (e : UtapEntity) (s : Suggestion) :
  In s (entity_members doc q p e) ->
  kind s <> process /\ (exists x, name s = p ++ x) /\
  (kind s = unknown ->
   exists x, name s = p ++ x /\ is_name_autogenerated x = false).
Proof.
  assert (S : forall t, In s (struct_members p t) ->
              kind s <> process /\ (exists x, name s = p ++ x) /\
              (kind s = unknown ->
               exists x, name s = p ++ x /\ is_name_autogenerated x = false)).
  { intros t H. apply struct_members_kind in H as [Hk Hn].
    rewrite Hk. repeat split; [discriminate | exact Hn | discriminate]. }
  destruct e as [sym|t]; simpl; [|apply S].
  destruct (is_template sym && q).
  - destruct (find_process doc (get_name sym)); [|contradiction].
    apply template_members_kind.
  - destruct (is_struct sym); [|contradiction].
    destruct (get (get_type sym) 0); [apply S | contradiction].
Qed.

(** A suggestion of kind [process] in an offer: the symbol is a template
    instance and templates are in use. *)
Lemma symbol_offer_process (id : Identifier) (decls : declarations_t)
  (ut : bool) (v : symbol_t * TextRange) (lv : list Suggestion) (s : Suggestion) :
  symbol_offer id decls ut v = Returned lv -> In s lv -> kind s = process ->
  ut = true.
Proof.
  destruct v as [sym range]; unfold symbol_offer.
  destruct (is_symbol_visible id decls sym range); [|intros [= <-] []].
  destruct (negb (is_template sym)).
  - destruct (sym_type (get_type sym)) as [k|] eqn:Hk; [|discriminate].
    intros [= <-] [<-|[]] Hp; simpl in Hp.
    now apply sym_type_not_process in Hk.
  - destruct ut; [reflexivity | intros [= <-] []].
Qed.

End OfferKinds.

Lemma use_templates_iff (xp : string) :
  String.eqb xp "/nta/queries!" || String.eqb xp "/nta/system!" = true
  <-> xp = "/nta/queries!" \/ xp = "/nta/system!".
Proof. now rewrite orb_true_iff, !String.eqb_eq. Qed.

(** ** C3 and C4: which visited symbols are offered *)

Section Visibility.
Context {Q : TypeQueries}.

Lemma symbol_offer_template_suppressed (id : Identifier) (decls : declarations_t)
  (v : symbol_t * TextRange) :
  negb (is_template (fst v)) = false ->
  symbol_offer id decls false v = Returned [].
Proof.
  destruct v as [sym range]; simpl; intros ->.
  now destruct (is_symbol_visible id decls sym range).
Qed.


Lemma plain_identifier (s : string) :
  Str.contains "." s = false -> Str.find_last_of "." s = None.
Proof. apply StrFacts.find_last_of_none. Qed.

Lemma dotted_identifier (s : string) :
  Str.contains "." s = true -> exists off, Str.find_last_of "." s = Some off.
Proof.
  intros H. destruct (Str.find_last_of "." s) as [off|] eqn:E; [eauto|].
  apply StrFacts.find_last_of_none in E. congruence.
Qed.

(** The result does not depend on the visits that offer nothing. *)
Lemma autocomplete_with_visited (doc : Document) (id : Identifier)
  (p : declarations_t -> symbol_t * TextRange -> bool) :
  (forall decls v, p decls v = false ->
     symbol_offer id decls
       (String.eqb (xpath id) "/nta/queries!"
        || String.eqb (xpath id) "/nta/system!") v = Returned []) ->
  autocomplete
    (with_visited doc (fun d => List.filter (p d) (visit_symbols doc d))) id
  = autocomplete doc id.
Proof.
  intros Hp.
  destruct (navigate_xpath doc (xpath id) (offset id)) as [decls|] eqn:Hn;
    [|unfold autocomplete; simpl; now rewrite Hn].
  destruct (Str.find_last_of "." (identifier id)) as [off|] eqn:Hf.
  - now rewrite (autocomplete_dotted doc id decls off Hn Hf),
      (autocomplete_dotted (with_visited doc _) id decls off Hn Hf).
  - rewrite (autocomplete_plain doc id decls Hn Hf),
      (autocomplete_plain (with_visited doc _) id decls Hn Hf).
    simpl visit_symbols. now rewrite (gather_filter _ _ _ (Hp decls)).
Qed.

(** A visible template instance is returned as [process] in the query and
    system contexts. *)
Lemma visible_template_returned (doc : Document) (id : Identifier)
  (decls : declarations_t) (l : list Suggestion) (sym : symbol_t)
  (range : TextRange) :
  navigate_xpath doc (xpath id) (offset id) = Some decls ->
  autocomplete doc id = Returned l ->
  Str.contains "." (identifier id) = false ->
  In (sym, range) (visit_symbols doc decls) ->
  is_template sym = true ->
  is_symbol_visible id decls sym range = true ->
  xpath id = "/nta/queries!" \/ xpath id = "/nta/system!" ->
  In (Sug (get_name sym) process) l.
Proof.
  intros Hn H Hc Hv Ht Hvis Hx.
  pose proof (proj2 (use_templates_iff _) Hx) as Hu.
  rewrite (autocomplete_plain doc id decls Hn (plain_identifier _ Hc)) in H.
  rewrite Hu in H.
  destruct (gather _ _) as [offers|e] eqn:Hg; simpl in H; [|discriminate].
  injection H as <-.
  destruct (gather_incl _ _ _ _ Hg Hv) as [lv [Ho Hi]].
  simpl in Ho. rewrite Hvis, Ht in Ho. simpl in Ho. injection Ho as <-.
  apply in_or_app; right.
  assert (Hm : ignored_mask (xpath id) = 0%Z)
    by (destruct Hx as [-> | ->]; reflexivity).
  rewrite Hm, emit_zero. apply Hi. now left.
Qed.

(** C3 (template gating). A suggestion of kind [process] is returned only
    under the xpath [/nta/queries!] or [/nta/system!]; a template instance
    that the walker visits and that is visible at the cursor (no dot in the
    identifier) is returned with kind [process] if and only if the xpath is
    one of these two; under every other xpath the result is the one of the
    same document with the template instances left out of the walk. *)
Theorem C3_template_gating (doc : Document) (id : Identifier)
  (decls : declarations_t) (l : list Suggestion) :
  navigate_xpath doc (xpath id) (offset id) = Some decls ->
  autocomplete doc id = Returned l ->
  ((exists s, In s l /\ kind s = process) ->
   xpath id = "/nta/queries!" \/ xpath id = "/nta/system!") /\
  (Str.contains "." (identifier id) = false ->
   forall sym range,
     In (sym, range) (visit_symbols doc decls) ->
     is_template sym = true ->
     is_symbol_visible id decls sym range = true ->
     (In (Sug (get_name sym) process) l
      <-> xpath id = "/nta/queries!" \/ xpath id = "/nta/system!")) /\
  (xpath id <> "/nta/queries!" -> xpath id <> "/nta/system!" ->
   autocomplete (without_templates doc) id = Returned l).
Proof.
  intros Hn H.
  assert (P1 : (exists s, In s l /\ kind s = process) ->
               xpath id = "/nta/queries!" \/ xpath id = "/nta/system!").
  { intros [s [Hs Hk]].
    destruct (returned_origin doc id l s H Hs)
      as [_ [d [_ [[off [e [_ [_ Hm]]]]|[_ [Hd|[v [lv [_ [Ho Hv]]]]]]]]]].
    - apply entity_members_kind in Hm as [Hm _]. contradiction.
    - apply default_tables_kinds in Hd as [_ Hd]. contradiction.
    - apply use_templates_iff. exact (symbol_offer_process _ _ _ _ _ _ Ho Hv Hk). }
  split; [exact P1|]. split.
  - intros Hc sym range Hv Ht Hvis. split.
    + intros Hin. apply P1. now exists (Sug (get_name sym) process).
    + intros Hx.
      exact (visible_template_returned doc id decls l sym range
               Hn H Hc Hv Ht Hvis Hx).
  - intros Hq Hs. rewrite <- H. unfold without_templates.
    apply (autocomplete_with_visited doc id
             (fun _ v => negb (is_template (fst v)))).
    intros d v Hv.
    apply String.eqb_neq in Hq, Hs. rewrite Hq, Hs. simpl.
    now apply symbol_offer_template_suppressed.
Qed.

End Visibility.

Lemma C3_template_gating_witness :
  exists l,
    autocomplete (Q := Sample.queries) Sample.doc (Request "/nta/system!" 1000 "")
    = Returned l /\
    In (Sug "P" process) l.
Proof.
  eexists. split; [reflexivity|].
  refine (proj2 (proj1 (proj2
    (C3_template_gating (Q := Sample.queries) Sample.doc
       (Request "/nta/system!" 1000 "") (Declarations Sample.global_frame) _
       eq_refl eq_refl))
    eq_refl Sample.sym_P (Range 510 523) _ eq_refl eq_refl) _).
  - simpl. tauto.
  - right. reflexivity.
Defined.

(** Under [/nta/system!] at offset 510 the template instance [P], declared
    at 510 in the block's own frame, is visited and not returned: it does not
    pass the visibility test. Under [/nta/queries!] a request with a dot in
    the identifier returns members only, here none. *)
Lemma C3_counterexample :
  navigate_xpath Sample.doc "/nta/system!" 510
  = Some (Declarations Sample.global_frame) /\
  In (Sample.sym_P, Range 510 523)
     (visit_symbols Sample.doc (Declarations Sample.global_frame)) /\
  is_template (Q := Sample.queries) Sample.sym_P = true /\
  (exists l,
     autocomplete (Q := Sample.queries) Sample.doc
       (Request "/nta/system!" 510 "") = Returned l /\
     forall s, In s l -> name s <> "P") /\
  autocomplete (Q := Sample.queries) Sample.doc (Request "/nta/queries!" 0 "zz.")
  = Returned [].
Proof.
  split; [reflexivity|]. split; [simpl; tauto|]. split; [reflexivity|].
  split; [|reflexivity].
  eexists. split; [reflexivity|].
  match goal with
  | |- forall s, In s ?L -> _ =>
      assert (F : forallb (fun s => negb (String.eqb (name s) "P")) L = true)
        by reflexivity;
      intros s Hs; apply (proj1 (forallb_forall _ _) F) in Hs;
      apply negb_true_iff in Hs; now apply String.eqb_neq in Hs
  end.
Qed.

Section ForwardReferences.
Context {Q : TypeQueries}.


End ForwardReferences.



(** ** C5: the prefix of a dotted request *)

Section Dotted.
Context {Q : TypeQueries}.

(** Every suggestion returned for a dotted identifier is the prefix through
    the last dot followed by a member name; a suggestion of kind [unknown]
    carries a name [is_name_autogenerated] rejects. *)
Lemma dotted_returned (doc : Document) (id : Identifier) (off : nat)
  (l : list Suggestion) (s : Suggestion) :
  Str.find_last_of "." (identifier id) = Some off ->
  autocomplete doc id = Returned l -> In s l ->
  kind s <> process /\
  (exists x, name s = Str.substr (identifier id) 0 (off + 1) ++ x) /\
  (kind s = unknown ->
   exists x, name s = Str.substr (identifier id) 0 (off + 1) ++ x
             /\ is_name_autogenerated x = false).
Proof.
  intros Hf H Hs.
  destruct (returned_origin doc id l s H Hs)
    as [_ [d [_ [[off' [e [Hf' [_ Hm]]]]|[Hf' _]]]]]; [|congruence].
  assert (off' = off) as -> by congruence.
  now apply entity_members_kind in Hm.
Qed.

(** C5 (prefix preservation). When the identifier contains a dot, it
    splits into [P], which ends in a dot, and a rest without a dot, and every
    returned name starts with [P]. *)
Theorem C5_prefix_preservation (doc : Document) (id : Identifier)
  (l : list Suggestion) :
  Str.contains "." (identifier id) = true ->
  autocomplete doc id = Returned l ->
  exists P rest,
    identifier id = P ++ rest /\
    Str.ends_with P "." = true /\
    Str.contains "." rest = false /\
    forall s, In s l -> Str.starts_with (name s) P = true.
Proof.
  intros Hc H. destruct (dotted_identifier _ Hc) as [off Hf].
  destruct (StrFacts.find_last_of_split _ _ _ Hf) as [rest [HP [Hid Hrest]]].
  exists (Str.substr (identifier id) 0 (off + 1)), rest.
  split; [exact Hid|]. split.
  - apply StrFacts.ends_with_iff. eexists. exact HP.
  - split; [exact Hrest|]. intros s Hs.
    destruct (dotted_returned doc id off l s Hf H Hs) as [_ [[x ->] _]].
    apply StrFacts.starts_with_app.
Qed.

End Dotted.

Lemma C5_prefix_preservation_witness :
  Str.contains "." "s." = true /\
  autocomplete (Q := Sample.queries) Sample.doc
    (Request "/nta/declaration!" 0 "s.")
  = Returned [Sug "s.a" variable; Sug "s.b" variable] /\
  exists P rest,
    "s." = P ++ rest /\
    Str.ends_with P "." = true /\
    Str.contains "." rest = false /\
    forall s, In s [Sug "s.a" variable; Sug "s.b" variable] ->
              Str.starts_with (name s) P = true.
Proof.
  split; [reflexivity|]. split; [reflexivity|].
  exact (C5_prefix_preservation (Q := Sample.queries) Sample.doc
           (Request "/nta/declaration!" 0 "s.") _ eq_refl eq_refl).
Defined.

(** ** C6: the classifier *)

Section ClassifierFacts.
Context {Q : TypeQueries}.

(** C6. [sym_type] is the classifier of the specification: the rules
    channel to [channel]; clock, integral, floating, string or record to
    [variable]; typedef to [type]; function or external function to
    [function]; array to the classification of the element type, tried in
    this order with the first match winning, and [unknown] when none
    matches. *)
Theorem C6_classifier_rules (t : type_t) : sym_type t = classify_spec t.
Proof.
  revert t. fix IH 1. intros [kd cs].
  cbn [sym_type classify_spec]. unfold first_match, classifier_rules.
  cbn [find fst snd option_map].
  repeat match goal with
         | |- context [if ?b then _ else _] => destruct b; cbn [option_map snd]
         end; try reflexivity.
  destruct cs as [|[lb elt] cs']; [reflexivity | apply IH].
Qed.

End ClassifierFacts.

(** ** C7 and C10: auto-generated location names *)

Lemma digits_have_no_dot (ds : string) :
  Str.all_of is_digit ds = true -> Str.contains "." ds = false.
Proof.
  induction ds as [|d ds IH]; simpl; [reflexivity|].
  intros H. apply andb_true_iff in H as [Hd Hds]. rewrite (IH Hds), orb_false_r.
  destruct (Ascii.eqb d ".") eqn:E; [|reflexivity].
  apply Ascii.eqb_eq in E. subst d. discriminate.
Qed.

(** A name of the pattern is [_id] and a non-empty run of digits. *)
Lemma matches_id_digits_inv (n : string) :
  matches_id_digits n = true ->
  exists d ds, n = "_id" ++ String d ds /\
               is_digit d = true /\ Str.all_of is_digit ds = true.
Proof.
  destruct n as [|a [|b [|c [|d ds]]]]; try discriminate. simpl.
  rewrite !andb_true_iff, !Ascii.eqb_eq. intros [[[[-> ->] ->] Hd] Hds].
  exists d, ds. auto.
Qed.

(** The predicate of the source accepts every name of the pattern. *)
Lemma matches_id_digits_autogenerated (n : string) :
  matches_id_digits n = true -> is_name_autogenerated n = true.
Proof.
  intros H. destruct (matches_id_digits_inv n H) as [d [ds [-> [Hd Hds]]]].
  unfold is_name_autogenerated, Str.substr, Str.substr_from. simpl.
  now rewrite StrFacts.substring_0_all, Hd, Hds.
Qed.

Lemma matches_id_digits_no_dot (n : string) :
  matches_id_digits n = true -> Str.contains "." n = false.
Proof.
  intros H. destruct (matches_id_digits_inv n H) as [d [ds [-> [Hd Hds]]]].
  change (Str.contains "." (String d ds) = false).
  apply digits_have_no_dot. simpl. now rewrite Hd, Hds.
Qed.

(** Locations with a name [is_name_autogenerated] accepts add nothing. *)
Lemma template_members_skip (p : string) (vs : list variable_t)
  (fs : list function_t) (ls : list location_t) (keep : location_t -> bool) :
  (forall loc, keep loc = false ->
               is_name_autogenerated (get_name (loc_uid loc)) = true) ->
  template_members p (Template vs fs (List.filter keep ls))
  = template_members p (Template vs fs ls).
Proof.
  intros Hk. unfold template_members; simpl. do 3 f_equal.
  induction ls as [|loc ls IH]; simpl; [reflexivity|].
  destruct (keep loc) eqn:E; simpl.
  - now rewrite IH.
  - now rewrite (Hk loc E), IH.
Qed.

Lemma prefix_has_dot (s : string) (off : nat) :
  Str.find_last_of "." s = Some off ->
  forall x, Str.contains "." (Str.substr s 0 (off + 1) ++ x) = true.
Proof.
  intros Hf x. destruct (StrFacts.find_last_of_split _ _ _ Hf) as [_ [-> _]].
  now rewrite !StrFacts.contains_app, orb_true_r.
Qed.

Section Autogenerated.
Context {Q : TypeQueries}.

(** C7, as the resolver has it. For a request with a dot in the identifier
    no returned name matches [_id] followed by one or more digits, and no
    suggestion of kind [unknown] (the kind of locations) is the prefix
    followed by such a name; template member enumeration skips every
    location whose name matches the pattern. *)
Theorem C7_autogenerated_locations (doc : Document) (id : Identifier)
  (l : list Suggestion) (n : string) :
  Str.contains "." (identifier id) = true ->
  autocomplete doc id = Returned l ->
  matches_id_digits n = true ->
  (forall s, In s l -> name s <> n) /\
  (forall off, Str.find_last_of "." (identifier id) = Some off ->
     ~ In (Sug (Str.substr (identifier id) 0 (off + 1) ++ n) unknown) l) /\
  (forall rb vs fs ls,
     add_template rb (Template vs fs ls)
     = add_template rb
         (Template vs fs
            (List.filter
               (fun loc => negb (matches_id_digits (get_name (loc_uid loc)))) ls))).
Proof.
  intros Hc H Hn. destruct (dotted_identifier _ Hc) as [off Hf].
  split; [|split].
  - intros s Hs E.
    destruct (dotted_returned doc id off l s Hf H Hs) as [_ [[x Hx] _]].
    pose proof (prefix_has_dot _ _ Hf x) as Hd.
    rewrite <- Hx, E, (matches_id_digits_no_dot n Hn) in Hd. discriminate.
  - intros off' Hf' Hs. assert (off' = off) as -> by congruence.
    destruct (dotted_returned doc id off l _ Hf H Hs) as [_ [_ Hu]].
    destruct (Hu eq_refl) as [x [Hx Ha]]. simpl in Hx.
    apply StrFacts.app_inv_head in Hx. subst x.
    rewrite (matches_id_digits_autogenerated n Hn) in Ha. discriminate.
  - intros rb vs fs ls. rewrite !add_template_push. f_equal. f_equal.
    symmetry. apply template_members_skip.
    intros loc Hl. apply negb_false_iff in Hl.
    now apply matches_id_digits_autogenerated.
Qed.

End Autogenerated.

(** A global variable the user named [_id7] is returned as it is. *)
Lemma C7_counterexample :
  matches_id_digits "_id7" = true /\
  exists l,
    autocomplete (Q := Sample.queries) Sample.doc
      (Request "/nta/declaration!" 100 "") = Returned l /\
    In (Sug "_id7" variable) l.
Proof.
  split; [reflexivity|]. eexists. split; [reflexivity|].
  simpl. repeat (try (left; reflexivity); right).
Qed.

Lemma C7_autogenerated_locations_witness :
  Str.contains "." "P." = true /\
  autocomplete (Q := Sample.queries) Sample.doc (Request "/nta/queries!" 0 "P.")
  = Returned [Sug "P.y" variable; Sug "P.g" function; Sug "P.Idle" unknown] /\
  matches_id_digits "_id0" = true /\
  ~ In (Sug "P._id0" unknown)
      [Sug "P.y" variable; Sug "P.g" function; Sug "P.Idle" unknown].
Proof.
  split; [reflexivity|]. split; [reflexivity|]. split; [reflexivity|].
  exact (proj1 (proj2
    (C7_autogenerated_locations (Q := Sample.queries) Sample.doc
       (Request "/nta/queries!" 0 "P.") _ "_id0" eq_refl eq_refl eq_refl))
    1%nat eq_refl).
Defined.

(** C10. The predicate accepts the bare name [_id]: the test that all the
    characters after the third are digits holds of the empty rest. The name
    is not of the pattern [_id] followed by one or more digits, and a
    location named [_id] adds nothing to the members of a template. *)
Theorem C10_bare_id_is_autogenerated :
  is_name_autogenerated "_id" = true /\
  Str.substr_from "_id" 3 = "" /\
  Str.all_of is_digit "" = true /\
  matches_id_digits "_id" = false /\
  forall rb vs fs ls1 ls2 ty fr,
    add_template rb
      (Template vs fs (ls1 ++ Location_ (Symbol "_id" ty fr) :: ls2))
    = add_template rb (Template vs fs (ls1 ++ ls2)).
Proof.
  repeat split.
  intros rb vs fs ls1 ls2 ty fr. rewrite !add_template_push. f_equal. f_equal.
  unfold template_members; simpl. do 3 f_equal.
  now rewrite !List.filter_app.
Qed.

(** ** C8: unresolved heads and the defaults *)

Lemma static_vocabulary_no_dot (n : string) :
  In n (map name static_vocabulary) -> Str.contains "." n = false.
Proof.
  assert (F : forallb (fun n => negb (Str.contains "." n))
                (map name static_vocabulary) = true) by reflexivity.
  intros H. apply negb_true_iff.
  exact (proj1 (forallb_forall _ _) F n H).
Qed.

Section Unresolved.
Context {Q : TypeQueries}.

(** C8. For a request with a dot in the identifier, navigated to a
    declarations block: when the head before the last dot resolves to no
    entity the result is the empty list; and whatever the head resolves to,
    no returned suggestion is an entry of the static tables (keywords and
    built-in functions), nor carries the name of one. *)
Theorem C8_unresolved_prefix (doc : Document) (id : Identifier)
  (decls : declarations_t) :
  Str.contains "." (identifier id) = true ->
  navigate_xpath doc (xpath id) (offset id) = Some decls ->
  (forall off,
     Str.find_last_of "." (identifier id) = Some off ->
     find_declaration doc decls (Str.substr (identifier id) 0 off) = None ->
     autocomplete doc id = Returned []) /\
  (forall l s,
     autocomplete doc id = Returned l -> In s l ->
     ~ In (name s) (map name static_vocabulary) /\ ~ In s static_vocabulary).
Proof.
  intros Hc Hn. split.
  - intros off Hf Hd. rewrite (autocomplete_dotted doc id decls off Hn Hf).
    now rewrite Hd.
  - intros l s H Hs. destruct (dotted_identifier _ Hc) as [off Hf].
    destruct (dotted_returned doc id off l s Hf H Hs) as [_ [[x Hx] _]].
    assert (N : ~ In (name s) (map name static_vocabulary)).
    { intros Hv. apply static_vocabulary_no_dot in Hv.
      rewrite Hx, (prefix_has_dot _ _ Hf x) in Hv. discriminate. }
    split; [exact N|]. intros Hv. apply N. now apply in_map.
Qed.

End Unresolved.

Lemma C8_unresolved_prefix_witness :
  Str.contains "." "zz." = true /\
  navigate_xpath Sample.doc "/nta/declaration!" 0
  = Some (Declarations Sample.global_frame) /\
  Str.find_last_of "." "zz." = Some 2%nat /\
  find_declaration Sample.doc (Declarations Sample.global_frame) "zz" = None /\
  autocomplete (Q := Sample.queries) Sample.doc
    (Request "/nta/declaration!" 0 "zz.") = Returned [].
Proof.
  repeat (split; [reflexivity|]).
  exact (proj1
    (C8_unresolved_prefix (Q := Sample.queries) Sample.doc
       (Request "/nta/declaration!" 0 "zz.") (Declarations Sample.global_frame)
       eq_refl eq_refl) 2%nat eq_refl eq_refl).
Defined.

(** ** The resolver on the sample document *)

Example members_of_a_template_instance :
  autocomplete (Q := Sample.queries) Sample.doc (Request "/nta/queries!" 0 "P.")
  = Returned [Sug "P.y" variable; Sug "P.g" function; Sug "P.Idle" unknown].
Proof. reflexivity. Qed.

Example template_members_outside_queries :
  autocomplete (Q := Sample.queries) Sample.doc (Request "/nta/system!" 0 "P.")
  = Returned [].
Proof. reflexivity. Qed.

Example parameter_context :
  autocomplete (Q := Sample.queries) Sample.doc
    (Request "/nta/template[1]/parameter!" 0 "")
  = Returned [Sug "int" type; Sug "double" type; Sug "clock" type;
              Sug "chan" type; Sug "bool" type; Sug "T" type].
Proof. reflexivity. Qed.

Example array_of_channels :
  sym_type (Q := Sample.queries)
    (Ty ARRAY [("", Ty CHANNEL []); ("", Sample.t_int)]) = Some channel.
Proof. reflexivity. Qed.

Example masks_of_the_contexts :
  map ignored_mask
    ["/nta/declaration!"; "/nta/queries!"; "/nta/template[1]/parameter!";
     Sample.guard_xpath; Sample.sync_xpath]
  = [0; 0; 247; 252; 251]%Z.
Proof. reflexivity. Qed.

(** * Further properties of the resolver *)

(** ** The predicate on auto-generated names *)

(** [is_name_autogenerated] holds exactly of [_id] followed by digits, zero
    or more. In particular a name of fewer than three characters never
    passes, and the rest after the third character is never read for one. *)
Theorem is_name_autogenerated_iff (n : string) :
  is_name_autogenerated n = true
  <-> exists ds, n = "_id" ++ ds /\ Str.all_of is_digit ds = true.
Proof.
  unfold is_name_autogenerated, Str.substr, Str.substr_from. split.
  - intros H. apply andb_true_iff in H as [H1 H2]. apply String.eqb_eq in H1.
    destruct n as [|a [|b [|c rest]]]; simpl in H1; try discriminate.
    injection H1 as -> -> -> _. exists rest. split; [reflexivity|].
    simpl in H2. now rewrite Nat.sub_0_r, StrFacts.substring_0_all in H2.
  - intros [ds [-> H]]. simpl.
    rewrite Nat.sub_0_r, StrFacts.substring_0_all, H.
    now destruct ds.
Qed.

(** ** The serialisers *)

Lemma serialize_SymType_injective (a b : SymType) :
  serialize_SymType a = serialize_SymType b -> a = b.
Proof. destruct a, b; simpl; intros H; (reflexivity || discriminate). Qed.

Lemma suggestion_object_injective (a b : Suggestion) :
  suggestion_object a = suggestion_object b -> a = b.
Proof.
  destruct a as [na ka], b as [nb kb]; unfold suggestion_object; simpl.
  intros H. injection H as Hn Hk.
  apply serialize_SymType_injective in Hk. now subst.
Qed.

Lemma map_injective {A B : Type} (f : A -> B) :
  (forall x y, f x = f y -> x = y) ->
  forall l1 l2, map f l1 = map f l2 -> l1 = l2.
Proof.
  intros Hf. induction l1 as [|x l1 IH]; intros [|y l2] H; simpl in H;
    try discriminate; [reflexivity|].
  injection H as Hx Ht. f_equal; [now apply Hf | now apply IH].
Qed.

Lemma serialize_loop (items : list Suggestion) (acc : list json) :
  fold_left
    (fun acc item =>
       match acc with
       | Some json_array => json_push_back json_array (suggestion_object item)
       | None => None
       end)
    items (Some (JArray acc))
  = Some (JArray (acc ++ map suggestion_object items)).
Proof.
  revert acc; induction items as [|i items IH]; intros acc; simpl.
  - now rewrite List.app_nil_r.
  - rewrite IH. now rewrite <- List.app_assoc.
Qed.

Lemma serialize_Suggestions_eq (items : list Suggestion) :
  serialize_Suggestions items
  = Some match items with
         | [] => JNull
         | _ :: _ => JArray (map suggestion_object items)
         end.
Proof.
  destruct items as [|i items]; [reflexivity|].
  unfold serialize_Suggestions. simpl. apply (serialize_loop items [_]).
Qed.

(** The serialiser of a suggestion list never throws. An empty list gives
    the JSON value null, not an empty array; a list with an item gives the
    array of the items' objects, one per item and in the order of the list. *)
Theorem serialize_Suggestions_shape (items : list Suggestion) :
  serialize_Suggestions items
  = Some match items with
         | [] => JNull
         | _ :: _ => JArray (map suggestion_object items)
         end.
Proof. exact (serialize_Suggestions_eq items). Qed.

(** The serialised value determines the suggestion list: two lists with
    the same serialisation are equal, names, kinds and order. *)
Theorem serialize_Suggestions_injective (l1 l2 : list Suggestion) :
  serialize_Suggestions l1 = serialize_Suggestions l2 -> l1 = l2.
Proof.
  rewrite !serialize_Suggestions_eq. intros H.
  apply (f_equal (fun o => match o with
                           | Some (JArray l) => l
                           | _ => []
                           end)) in H.
  destruct l1 as [|a l1], l2 as [|b l2]; cbv beta iota in H.
  - reflexivity.
  - discriminate H.
  - discriminate H.
  - exact (map_injective _ suggestion_object_injective _ _ H).
Qed.

Lemma serialize_Suggestions_injective_witness :
  serialize_Suggestions [Sug "x" variable] = serialize_Suggestions [Sug "x" variable]
  /\ [Sug "x" variable] = [Sug "x" variable].
Proof.
  split; [reflexivity|].
  apply (serialize_Suggestions_injective [Sug "x" variable] [Sug "x" variable]).
  reflexivity.
Defined.

(** ** The builder only appends *)

Lemma push_back_appends (rb : ResultBuilder) (m : Z) (l : list Suggestion) :
  m = type_filter_mask rb -> appends_filtered rb (push_back rb (emit m l)).
Proof.
  intros ->. exists (emit (type_filter_mask rb) l). repeat split.
  intros s Hs. now apply emit_In in Hs.
Qed.

(** Every adding operation of the builder leaves the items it found in
    place and in order, appends only suggestions whose kind the mask admits,
    and changes neither the prefix nor the mask. *)
Theorem builder_operations_append (rb : ResultBuilder) :
  (forall n k, appends_filtered rb (add_item rb n k)) /\
  (forall cs, appends_filtered rb (add_items rb cs)) /\
  (forall xp, appends_filtered rb (add_defaults rb xp)) /\
  (forall t, appends_filtered rb (add_struct rb t)) /\
  (forall templ, appends_filtered rb (add_template rb templ)).
Proof.
  repeat split; intros.
  - rewrite add_item_push. now apply push_back_appends.
  - rewrite add_items_push. now apply push_back_appends.
  - rewrite add_defaults_push. now apply push_back_appends.
  - rewrite add_struct_push. now apply push_back_appends.
  - rewrite add_template_push. now apply push_back_appends.
Qed.

(** ** The mask and the defaults of each context *)

(** From [H : ends_with xp x = true], rewrite the tests of [xp] against the
    suffixes of the source: the test against [x] is true, the tests against
    the suffixes that neither end in [x] nor end [x] are false. *)
Ltac use_suffix H :=
  match type of H with
  | Str.ends_with ?xp ?x = true =>
      let E := fresh "E" in
      pose proof (fun y a b => StrFacts.ends_with_exclusive xp x y a b H) as E;
      repeat first
        [ rewrite H
        | rewrite (E "/queries!" eq_refl eq_refl)
        | rewrite (E "/parameter!" eq_refl eq_refl)
        | rewrite (E (label_kind "invariant") eq_refl eq_refl)
        | rewrite (E (label_kind "exponentialrate") eq_refl eq_refl)
        | rewrite (E (label_kind "select") eq_refl eq_refl)
        | rewrite (E (label_kind "guard") eq_refl eq_refl)
        | rewrite (E (label_kind "synchronisation") eq_refl eq_refl)
        | rewrite (E (label_kind "assignment") eq_refl eq_refl) ];
      clear E
  end.

Lemma ignored_mask_of_suffix (xp : string) :
  (Str.ends_with xp "/parameter!" = true -> ignored_mask xp = 247%Z) /\
  (Str.ends_with xp (label_kind "invariant") = true -> ignored_mask xp = 252%Z) /\
  (Str.ends_with xp (label_kind "exponentialrate") = true -> ignored_mask xp = 253%Z) /\
  (Str.ends_with xp (label_kind "select") = true -> ignored_mask xp = 247%Z) /\
  (Str.ends_with xp (label_kind "guard") = true -> ignored_mask xp = 252%Z) /\
  (Str.ends_with xp (label_kind "synchronisation") = true -> ignored_mask xp = 251%Z) /\
  (Str.ends_with xp (label_kind "assignment") = true -> ignored_mask xp = 252%Z).
Proof.
  repeat match goal with |- _ /\ _ => split end; intros H;
    unfold ignored_mask, set_context_mask; use_suffix H; reflexivity.
Qed.

Lemma type_check_table (k : SymType) :
  (type_check 247 k = true <-> k = type) /\
  (type_check 251 k = true <-> k = channel) /\
  (type_check 253 k = true <-> k = variable) /\
  (type_check 252 k = true <-> k = variable \/ k = function).
Proof.
  repeat split; destruct k; simpl; intros H;
    try reflexivity; try discriminate; try tauto;
    destruct H; discriminate.
Qed.

(** The kinds each filtering context admits: [type] alone under the
    parameter and select suffixes, [variable] alone under the exponential
    rate, [channel] alone under the synchronisation, [variable] and
    [function] under invariant, guard and assignment. The suffixes exclude
    one another, so the order of the tests in the handler plays no role. *)
Theorem admissible_kinds_table (xp : string) (k : SymType) :
  (Str.ends_with xp "/parameter!" = true ->
   (type_check (ignored_mask xp) k = true <-> k = type)) /\
  (Str.ends_with xp (label_kind "invariant") = true ->
   (type_check (ignored_mask xp) k = true <-> k = variable \/ k = function)) /\
  (Str.ends_with xp (label_kind "exponentialrate") = true ->
   (type_check (ignored_mask xp) k = true <-> k = variable)) /\
  (Str.ends_with xp (label_kind "select") = true ->
   (type_check (ignored_mask xp) k = true <-> k = type)) /\
  (Str.ends_with xp (label_kind "guard") = true ->
   (type_check (ignored_mask xp) k = true <-> k = variable \/ k = function)) /\
  (Str.ends_with xp (label_kind "synchronisation") = true ->
   (type_check (ignored_mask xp) k = true <-> k = channel)) /\
  (Str.ends_with xp (label_kind "assignment") = true ->
   (type_check (ignored_mask xp) k = true <-> k = variable \/ k = function)).
Proof.
  destruct (ignored_mask_of_suffix xp) as [M1 [M2 [M3 [M4 [M5 [M6 M7]]]]]].
  destruct (type_check_table k) as [T1 [T2 [T3 T4]]].
  repeat match goal with |- _ /\ _ => split end; intros H;
    first [rewrite (M1 H) | rewrite (M2 H) | rewrite (M3 H) | rewrite (M4 H)
          | rewrite (M5 H) | rewrite (M6 H) | rewrite (M7 H)]; assumption.
Qed.

Lemma admissible_kinds_table_witness :
  Str.ends_with Sample.guard_xpath (label_kind "guard") = true /\
  (type_check (ignored_mask Sample.guard_xpath) function = true
   <-> function = variable \/ function = function).
Proof.
  split; [reflexivity|].
  exact (proj1 (proj2 (proj2 (proj2 (proj2
    (admissible_kinds_table Sample.guard_xpath function))))) eq_refl).
Defined.

Lemma ignored_mask_filtered (xp : string) :
  matches_filtering_suffix xp = true ->
  In (ignored_mask xp) [247; 252; 253; 251]%Z.
Proof.
  unfold matches_filtering_suffix, filtering_suffixes, ignored_mask,
    set_context_mask. cbn [existsb].
  repeat match goal with
         | |- context [if ?b then _ else _] => destruct b
         end; simpl; intros H; try tauto. discriminate.
Qed.

Lemma emitted_defaults_unfiltered (xp : string) :
  matches_filtering_suffix xp = false ->
  emit (ignored_mask xp) (List.concat (default_tables xp))
  = ((if Str.ends_with xp "/queries!" then queries_items else default_items)
     ++ builtin_functions)%list.
Proof.
  intros H. rewrite (ignored_mask_unfiltered xp H), emit_zero.
  apply matches_filtering_suffix_false in H. unfold filtering_suffixes in H.
  repeat match goal with
         | H : Forall _ (_ :: _) |- _ => inversion H; clear H; subst
         end.
  unfold default_tables.
  repeat match goal with
         | H : Str.ends_with _ _ = false |- _ => rewrite ?H; clear H
         end.
  destruct (Str.ends_with xp "/queries!"); cbn [List.concat];
    now rewrite List.app_nil_r.
Qed.

(** What the defaults contribute in each context: both tables whole where
    no filter is installed; the five type names under the parameter and
    select suffixes; the built-in functions alone under invariant, guard and
    assignment (the keywords, [true] and [false] of the guard table among
    them, have kind [unknown] and are dropped); nothing under the
    exponential rate and the synchronisation. *)
Theorem defaults_by_context (xp : string) :
  (matches_filtering_suffix xp = false ->
   emit (ignored_mask xp) (List.concat (default_tables xp))
   = ((if Str.ends_with xp "/queries!" then queries_items else default_items)
      ++ builtin_functions)%list) /\
  (Str.ends_with xp "/parameter!" = true
   \/ Str.ends_with xp (label_kind "select") = true ->
   emit (ignored_mask xp) (List.concat (default_tables xp))
   = [Sug "int" type; Sug "double" type; Sug "clock" type; Sug "chan" type;
      Sug "bool" type]) /\
  (Str.ends_with xp (label_kind "invariant") = true
   \/ Str.ends_with xp (label_kind "guard") = true
   \/ Str.ends_with xp (label_kind "assignment") = true ->
   emit (ignored_mask xp) (List.concat (default_tables xp)) = builtin_functions) /\
  (Str.ends_with xp (label_kind "exponentialrate") = true
   \/ Str.ends_with xp (label_kind "synchronisation") = true ->
   emit (ignored_mask xp) (List.concat (default_tables xp)) = []).
Proof.
  destruct (ignored_mask_of_suffix xp) as [M1 [M2 [M3 [M4 [M5 [M6 M7]]]]]].
  repeat match goal with |- _ /\ _ => split end.
  - apply emitted_defaults_unfiltered.
  - intros [H|H]; [rewrite (M1 H) | rewrite (M4 H)];
      unfold default_tables; use_suffix H; reflexivity.
  - intros [H|[H|H]]; [rewrite (M2 H) | rewrite (M5 H) | rewrite (M7 H)];
      unfold default_tables; use_suffix H; reflexivity.
  - intros [H|H]; [rewrite (M3 H) | rewrite (M6 H)];
      unfold default_tables; use_suffix H; reflexivity.
Qed.

Lemma defaults_by_context_witness :
  Str.ends_with Sample.guard_xpath (label_kind "guard") = true /\
  emit (ignored_mask Sample.guard_xpath)
    (List.concat (default_tables Sample.guard_xpath)) = builtin_functions.
Proof.
  split; [reflexivity|].
  apply (proj1 (proj2 (proj2 (defaults_by_context Sample.guard_xpath)))).
  right; left. reflexivity.
Defined.

(** ** The list returned for an identifier without a dot *)

Section PlainRequests.
Context {Q : TypeQueries}.

Lemma symbol_offer_single (id : Identifier) (decls : declarations_t)
  (ut : bool) (v : symbol_t * TextRange) (lv : list Suggestion) :
  symbol_offer id decls ut v = Returned lv ->
  (List.length lv <= 1)%nat /\
  forall s, In s lv ->
    name s = get_name (fst v) /\
    is_symbol_visible id decls (fst v) (snd v) = true.
Proof.
  destruct v as [sym range]; unfold symbol_offer; simpl.
  destruct (is_symbol_visible id decls sym range);
    [|intros [= <-]; split; [simpl; lia | intros s []]].
  destruct (negb (is_template sym)).
  - destruct (sym_type (get_type sym)) as [k|]; [|discriminate].
    intros [= <-]. split; [simpl; lia|]. intros s [<-|[]]. now split.
  - destruct ut; intros [= <-]; (split; [simpl; lia|]).
    + intros s [<-|[]]. now split.
    + intros s [].
Qed.

Lemma gather_length {A B : Type} (f : A -> outcome (list B)) (vs : list A)
  (l : list B) :
  (forall v lv, f v = Returned lv -> (List.length lv <= 1)%nat) ->
  gather f vs = Returned l -> (List.length l <= List.length vs)%nat.
Proof.
  intros Hf. revert l; induction vs as [|v vs IH]; simpl; intros l H.
  - injection H as <-. simpl. lia.
  - destruct (f v) as [lv|e] eqn:Hv; simpl in H; [|discriminate].
    destruct (gather f vs) as [xs|e]; simpl in H; [|discriminate].
    injection H as <-. rewrite List.length_app.
    specialize (Hf v lv Hv). specialize (IH xs eq_refl). lia.
Qed.

(** For an identifier without a dot the returned list is the defaults that
    pass the mask, in table order, followed by suggestions for visited
    symbols: at most one per visit, each named after a visited symbol that
    is visible at the cursor. *)
Theorem plain_result_shape (doc : Document) (id : Identifier)
  (decls : declarations_t) (l : list Suggestion) :
  Str.contains "." (identifier id) = false ->
  navigate_xpath doc (xpath id) (offset id) = Some decls ->
  autocomplete doc id = Returned l ->
  exists from_symbols,
    l = (emit (ignored_mask (xpath id)) (List.concat (default_tables (xpath id)))
         ++ from_symbols)%list /\
    (List.length from_symbols <= List.length (visit_symbols doc decls))%nat /\
    forall s, In s from_symbols ->
      exists sym range,
        In (sym, range) (visit_symbols doc decls) /\
        is_symbol_visible id decls sym range = true /\
        name s = get_name sym.
Proof.
  intros Hc Hn H.
  rewrite (autocomplete_plain doc id decls Hn (plain_identifier _ Hc)) in H.
  destruct (gather _ _) as [offers|e] eqn:Hg; simpl in H; [|discriminate].
  injection H as <-. exists (emit (ignored_mask (xpath id)) offers).
  split; [reflexivity|]. split.
  - unfold emit. etransitivity; [apply List.filter_length_le|].
    apply (gather_length _ _ _ (fun v lv Hv => proj1 (symbol_offer_single _ _ _ _ _ Hv)) Hg).
  - intros s Hs. apply emit_In in Hs as [Hs _].
    destruct (gather_In _ _ _ _ Hg Hs) as [[sym range] [lv [Hv [Ho Hin]]]].
    destruct (symbol_offer_single _ _ _ _ _ Ho) as [_ Hl].
    destruct (Hl s Hin) as [Hname Hvis]. exists sym, range. auto.
Qed.

(** In a context with a filter no suggestion of kind [unknown] or
    [process] is returned: no keyword, no location of a template, no
    template instance. *)
Theorem filtered_context_kinds (doc : Document) (id : Identifier)
  (l : list Suggestion) (s : Suggestion) :
  matches_filtering_suffix (xpath id) = true ->
  autocomplete doc id = Returned l -> In s l ->
  kind s <> unknown /\ kind s <> process.
Proof.
  intros Hm H Hs. destruct (returned_origin doc id l s H Hs) as [Hk _].
  pose proof (ignored_mask_filtered _ Hm) as Hmask. simpl in Hmask.
  destruct Hmask as [E|[E|[E|[E|[]]]]]; rewrite <- E in Hk;
    destruct (kind s); simpl in Hk; split; discriminate.
Qed.

End PlainRequests.

Lemma plain_result_shape_witness :
  Str.contains "." "" = false /\
  exists from_symbols,
    [Sug "c" channel]
    = (emit (ignored_mask Sample.sync_xpath)
         (List.concat (default_tables Sample.sync_xpath)) ++ from_symbols)%list.
Proof.
  split; [reflexivity|].
  destruct (plain_result_shape (Q := Sample.queries) Sample.doc
              (Request Sample.sync_xpath 0 "") (Declarations Sample.proc_frame)
              [Sug "c" channel] eq_refl eq_refl eq_refl) as [fs [E _]].
  exists fs. exact E.
Defined.

Lemma filtered_context_kinds_witness :
  matches_filtering_suffix Sample.guard_xpath = true /\
  kind (Sug "x" variable) <> unknown.
Proof.
  split; [reflexivity|].
  refine (proj1 (filtered_context_kinds (Q := Sample.queries) Sample.doc
                   (Request Sample.guard_xpath 0 "") _ (Sug "x" variable)
                   eq_refl eq_refl _)).
  simpl. repeat (try (left; reflexivity); right).
Defined.

(** ** What the identifier contributes *)

Lemma find_last_of_app (c : ascii) (a b : string) :
  Str.find_last_of c (a ++ b)
  = match Str.find_last_of c b with
    | Some k => Some (String.length a + k)%nat
    | None => Str.find_last_of c a
    end.
Proof.
  induction a as [|x a IH]; simpl.
  - now destruct (Str.find_last_of c b).
  - rewrite IH. now destruct (Str.find_last_of c b).
Qed.

Lemma find_last_of_head_dot (h r : string) :
  Str.contains "." r = false ->
  Str.find_last_of "." (h ++ String "." r) = Some (String.length h).
Proof.
  intros Hr. rewrite find_last_of_app. simpl.
  rewrite (proj2 (StrFacts.find_last_of_none _ _) Hr). simpl.
  now rewrite Nat.add_0_r.
Qed.

Lemma substr_head_dot (h r : string) :
  Str.substr (h ++ String "." r) 0 (String.length h) = h /\
  Str.substr (h ++ String "." r) 0 (String.length h + 1) = h ++ ".".
Proof.
  unfold Str.substr. split; [apply StrFacts.substring_0_app|].
  change (h ++ String "." r) with (h ++ ("." ++ r)).
  rewrite <- StrFacts.app_assoc.
  replace (String.length h + 1)%nat with (String.length (h ++ "."))
    by (rewrite StrFacts.length_app; reflexivity).
  apply StrFacts.substring_0_app.
Qed.

Section IdentifierFacts.
Context {Q : TypeQueries}.

(** A member access [h.r], [r] without a dot: the head [h] is looked up
    and its members are returned under the prefix [h.]. *)
Lemma autocomplete_member_access (doc : Document) (xp : string) (off : N)
  (h r : string) (decls : declarations_t) :
  Str.contains "." r = false ->
  navigate_xpath doc xp off = Some decls ->
  autocomplete doc (Request xp off (h ++ String "." r))
  = Returned
      match find_declaration doc decls h with
      | Some e =>
          emit (ignored_mask xp)
            (entity_members doc (String.eqb xp "/nta/queries!") (h ++ ".") e)
      | None => []
      end.
Proof.
  intros Hr Hn.
  rewrite (autocomplete_dotted doc (Request xp off (h ++ String "." r)) decls
             (String.length h) Hn (find_last_of_head_dot h r Hr)).
  simpl identifier. simpl xpath.
  destruct (substr_head_dot h r) as [-> ->]. reflexivity.
Qed.

(** The resolver does not match candidates against the text being typed:
    for identifiers without a dot the outcome is the same whatever the
    identifier. *)
Theorem plain_identifier_irrelevant (doc : Document) (xp : string) (off : N)
  (i1 i2 : string) :
  Str.contains "." i1 = false -> Str.contains "." i2 = false ->
  autocomplete doc (Request xp off i1) = autocomplete doc (Request xp off i2).
Proof.
  intros H1 H2.
  destruct (navigate_xpath doc xp off) as [decls|] eqn:Hn.
  - rewrite (autocomplete_plain doc (Request xp off i1) decls Hn
               (plain_identifier _ H1)),
      (autocomplete_plain doc (Request xp off i2) decls Hn
         (plain_identifier _ H2)).
    reflexivity.
  - unfold autocomplete; simpl. now rewrite Hn.
Qed.

(** In a member access only the text up to the last dot counts: what
    follows the last dot does not change the outcome. *)
Theorem member_access_rest_irrelevant (doc : Document) (xp : string) (off : N)
  (h r1 r2 : string) :
  Str.contains "." r1 = false -> Str.contains "." r2 = false ->
  autocomplete doc (Request xp off (h ++ String "." r1))
  = autocomplete doc (Request xp off (h ++ String "." r2)).
Proof.
  intros H1 H2.
  destruct (navigate_xpath doc xp off) as [decls|] eqn:Hn.
  - now rewrite (autocomplete_member_access doc xp off h r1 decls H1 Hn),
      (autocomplete_member_access doc xp off h r2 decls H2 Hn).
  - unfold autocomplete; simpl. now rewrite Hn.
Qed.

(** Moving the cursor to a later offset of the same declarations block
    takes no suggestion away. *)
Theorem later_cursor_keeps_suggestions (doc : Document) (xp : string)
  (off1 off2 : N) (i : string) (decls : declarations_t)
  (l1 l2 : list Suggestion) :
  Str.contains "." i = false ->
  navigate_xpath doc xp off1 = Some decls ->
  navigate_xpath doc xp off2 = Some decls ->
  (off1 <= off2)%N ->
  autocomplete doc (Request xp off1 i) = Returned l1 ->
  autocomplete doc (Request xp off2 i) = Returned l2 ->
  incl l1 l2.
Proof.
  intros Hc Hn1 Hn2 Hle H1 H2.
  rewrite (autocomplete_plain doc (Request xp off1 i) decls Hn1
             (plain_identifier _ Hc)) in H1.
  rewrite (autocomplete_plain doc (Request xp off2 i) decls Hn2
             (plain_identifier _ Hc)) in H2.
  simpl xpath in H1, H2.
  destruct (gather _ _) as [o1|e] eqn:G1 in H1; simpl in H1; [|discriminate].
  destruct (gather _ _) as [o2|e] eqn:G2 in H2; simpl in H2; [|discriminate].
  injection H1 as <-. injection H2 as <-.
  intros s Hs. apply in_app_or in Hs as [Hs|Hs]; apply in_or_app;
    [now left | right].
  apply emit_In in Hs as [Hs Hk]. apply emit_In. split; [|exact Hk].
  destruct (gather_In _ _ _ _ G1 Hs) as [[sym range] [lv [Hv [Ho Hin]]]].
  destruct (gather_incl _ _ _ _ G2 Hv) as [lv2 [Ho2 Hi2]].
  apply Hi2.
  destruct (symbol_offer_single _ _ _ _ _ Ho) as [_ Hl].
  destruct (Hl s Hin) as [_ Hvis]. simpl in Hvis.
  assert (Hvis2 : is_symbol_visible (Request xp off2 i) decls sym range = true).
  { unfold is_symbol_visible in *. simpl in *.
    apply orb_true_iff in Hvis as [Hf|Hlt]; apply orb_true_iff;
      [now left | right].
    apply N.ltb_lt in Hlt. apply N.ltb_lt. lia. }
  unfold symbol_offer in Ho, Ho2. rewrite Hvis in Ho. rewrite Hvis2 in Ho2.
  rewrite Ho in Ho2. injection Ho2 as <-. exact Hin.
Qed.

End IdentifierFacts.

Lemma plain_identifier_irrelevant_witness :
  Str.contains "." "" = false /\ Str.contains "." "la" = false /\
  autocomplete (Q := Sample.queries) Sample.doc (Request "/nta/system!" 1000 "")
  = autocomplete (Q := Sample.queries) Sample.doc (Request "/nta/system!" 1000 "la").
Proof.
  split; [reflexivity|]. split; [reflexivity|].
  exact (plain_identifier_irrelevant (Q := Sample.queries) Sample.doc
           "/nta/system!" 1000 "" "la" eq_refl eq_refl).
Defined.

Lemma member_access_rest_irrelevant_witness :
  Str.contains "." "a" = false /\ Str.contains "." "" = false /\
  autocomplete (Q := Sample.queries) Sample.doc (Request "/nta/declaration!" 0 "s.a")
  = autocomplete (Q := Sample.queries) Sample.doc (Request "/nta/declaration!" 0 "s.").
Proof.
  split; [reflexivity|]. split; [reflexivity|].
  exact (member_access_rest_irrelevant (Q := Sample.queries) Sample.doc
           "/nta/declaration!" 0 "s" "a" "" eq_refl eq_refl).
Defined.

Lemma later_cursor_keeps_suggestions_witness :
  Str.contains "." "" = false /\ (50 <= 1000)%N /\
  exists l1 l2,
    autocomplete (Q := Sample.queries) Sample.doc (Request "/nta/declaration!" 50 "")
    = Returned l1 /\
    autocomplete (Q := Sample.queries) Sample.doc (Request "/nta/declaration!" 1000 "")
    = Returned l2 /\
    incl l1 l2.
Proof.
  split; [reflexivity|]. split; [lia|].
  eexists. eexists. split; [reflexivity|]. split; [reflexivity|].
  refine (later_cursor_keeps_suggestions (Q := Sample.queries) Sample.doc
            "/nta/declaration!" 50 1000 "" (Declarations Sample.global_frame)
            _ _ eq_refl eq_refl eq_refl _ eq_refl eq_refl).
  lia.
Defined.

(** ** Member access *)

Lemma emit_same_kind (m : Z) (k : SymType) (l : list Suggestion) :
  (forall s, In s l -> kind s = k) ->
  emit m l = if type_check m k then l else [].
Proof.
  intros H. unfold emit. induction l as [|s l IH]; simpl.
  - now destruct (type_check m k).
  - rewrite (H s (or_introl eq_refl)), IH by (intros; apply H; now right).
    now destruct (type_check m k).
Qed.

Lemma struct_members_variable (p : string) (t : type_t) (s : Suggestion) :
  In s (struct_members p t) -> kind s = variable.
Proof. intros H. now apply struct_members_kind in H. Qed.

Lemma template_members_kinds (p : string) (templ : template_t) (s : Suggestion) :
  In s (template_members p templ) ->
  kind s = variable \/ kind s = function \/ kind s = unknown.
Proof.
  unfold template_members. intros H.
  apply in_app_or in H as [H|H]; [|apply in_app_or in H as [H|H]];
    apply in_map_iff in H as [x [<- _]]; simpl; tauto.
Qed.

Section MemberAccess.
Context {Q : TypeQueries}.

Lemma entity_members_kinds (doc : Document) (q : bool) (p : string)
  (e : UtapEntity) (s : Suggestion) :
  In s (entity_members doc q p e) ->
  kind s = variable
  \/ (q = true /\ (kind s = function \/ kind s = unknown)).
Proof.
  destruct e as [sym|t]; simpl;
    [|intros H; left; now apply struct_members_variable in H].
  destruct (is_template sym && q) eqn:E.
  - apply andb_true_iff in E as [_ ->].
    destruct (find_process doc (get_name sym)); [|contradiction].
    intros H. apply template_members_kinds in H. tauto.
  - destruct (is_struct sym); [|contradiction].
    destruct (get (get_type sym) 0); [|contradiction].
    intros H; left; now apply struct_members_variable in H.
Qed.

Lemma dotted_kinds (doc : Document) (id : Identifier)
  (l : list Suggestion) (s : Suggestion) :
  Str.contains "." (identifier id) = true ->
  autocomplete doc id = Returned l -> In s l ->
  kind s = variable
  \/ (xpath id = "/nta/queries!" /\ (kind s = function \/ kind s = unknown)).
Proof.
  intros Hc H Hs. destruct (dotted_identifier _ Hc) as [off Hf].
  destruct (returned_origin doc id l s H Hs)
    as [_ [d [_ [[off' [e [_ [_ Hm]]]]|[Hf' _]]]]]; [|congruence].
  apply entity_members_kinds in Hm as [Hm|[Hq Hm]]; [now left | right].
  split; [now apply String.eqb_eq | exact Hm].
Qed.

(** A member access returns suggestions of kind [variable] only, except
    under the xpath [/nta/queries!], where members of a template instance
    may also be of kind [function] (its functions) or [unknown] (its
    locations). No other kind is returned for a dotted identifier. *)
Theorem member_access_kinds (doc : Document) (id : Identifier)
  (l : list Suggestion) (s : Suggestion) :
  Str.contains "." (identifier id) = true ->
  autocomplete doc id = Returned l -> In s l ->
  kind s = variable
  \/ (xpath id = "/nta/queries!" /\ (kind s = function \/ kind s = unknown)).
Proof. exact (dotted_kinds doc id l s). Qed.

(** Under the parameter, select and synchronisation suffixes every member
    access returns the empty list: members are variables there, and these
    contexts admit [type] or [channel] only. *)
Theorem member_access_empty_in_type_contexts (doc : Document) (id : Identifier)
  (l : list Suggestion) :
  Str.contains "." (identifier id) = true ->
  Str.ends_with (xpath id) "/parameter!" = true
  \/ Str.ends_with (xpath id) (label_kind "select") = true
  \/ Str.ends_with (xpath id) (label_kind "synchronisation") = true ->
  autocomplete doc id = Returned l ->
  l = [].
Proof.
  intros Hc Hx H. destruct l as [|s l]; [reflexivity | exfalso].
  assert (Hs : In s (s :: l)) by now left.
  destruct (dotted_kinds doc id _ s Hc H Hs) as [Hk|[Hq _]].
  - destruct (returned_origin doc id _ s H Hs) as [Ht _]. rewrite Hk in Ht.
    destruct (ignored_mask_of_suffix (xpath id)) as [M1 [_ [_ [M4 [_ [M6 _]]]]]].
    destruct Hx as [Hx|[Hx|Hx]];
      [rewrite (M1 Hx) in Ht | rewrite (M4 Hx) in Ht | rewrite (M6 Hx) in Ht];
      discriminate.
  - rewrite Hq in Hx. destruct Hx as [Hx|[Hx|Hx]]; discriminate.
Qed.

(** Members of a template instance are listed under the xpath
    [/nta/queries!] alone, and there they are the variables, the functions
    and the locations without an auto-generated name of the process that
    [find_process] finds for the instance, in this order. Under any other
    xpath, [/nta/system!] included, an instance that is not a record yields
    the empty list. *)
Theorem template_member_access (doc : Document) (id : Identifier)
  (decls : declarations_t) (off : nat) (sym : symbol_t) :
  navigate_xpath doc (xpath id) (offset id) = Some decls ->
  Str.find_last_of "." (identifier id) = Some off ->
  find_declaration doc decls (Str.substr (identifier id) 0 off)
  = Some (EntitySymbol sym) ->
  is_template sym = true ->
  (xpath id = "/nta/queries!" ->
   autocomplete doc id
   = Returned match find_process doc (get_name sym) with
              | Some proc =>
                  template_members (Str.substr (identifier id) 0 (off + 1)) proc
              | None => []
              end) /\
  (xpath id <> "/nta/queries!" -> is_struct sym = false ->
   autocomplete doc id = Returned []).
Proof.
  intros Hn Hf Hd Ht.
  rewrite (autocomplete_dotted doc id decls off Hn Hf), Hd. simpl.
  rewrite Ht. split.
  - intros Hq. rewrite Hq. simpl.
    destruct (find_process doc (get_name sym)); [|reflexivity].
    now rewrite emit_zero.
  - intros Hq Hs. apply String.eqb_neq in Hq. rewrite Hq, Hs. reflexivity.
Qed.

(** A member access whose head resolves to a record type lists the fields
    of the record in declaration order, each under the prefix, when the
    context admits variables, and nothing otherwise. A type of another kind
    is unwrapped to its first child: an array of records lists the fields of
    the record, and the other children are not looked at. *)
Theorem record_member_access (doc : Document) (id : Identifier)
  (decls : declarations_t) (off : nat) (t : type_t)
  (cs : list (string * type_t)) :
  navigate_xpath doc (xpath id) (offset id) = Some decls ->
  Str.find_last_of "." (identifier id) = Some off ->
  find_declaration doc decls (Str.substr (identifier id) 0 off)
  = Some (EntityType t) ->
  (t = Ty RECORD cs
   \/ exists k lb rest,
        t = Ty k ((lb, Ty RECORD cs) :: rest) /\ kind_eqb k RECORD = false) ->
  autocomplete doc id
  = Returned
      (if type_check (ignored_mask (xpath id)) variable
       then map (fun lc => Sug (Str.substr (identifier id) 0 (off + 1) ++ fst lc)
                             variable) cs
       else []).
Proof.
  intros Hn Hf Hd Ht.
  rewrite (autocomplete_dotted doc id decls off Hn Hf), Hd. simpl.
  rewrite (emit_same_kind _ variable) by apply struct_members_variable.
  assert (E : struct_labels t = map fst cs).
  { destruct Ht as [->|[k [lb [rest [-> Hk]]]]].
    - destruct cs as [|[l0 c0] cs']; reflexivity.
    - cbn [struct_labels]. rewrite Hk. simpl negb. cbv iota.
      destruct cs as [|[l0 c0] cs']; reflexivity. }
  unfold struct_members. rewrite E, List.map_map. reflexivity.
Qed.

End MemberAccess.

Lemma member_access_kinds_witness :
  Str.contains "." "P." = true /\
  (kind (Sug "P.g" function) = variable
   \/ "/nta/queries!" = "/nta/queries!"
      /\ (kind (Sug "P.g" function) = function
          \/ kind (Sug "P.g" function) = unknown)).
Proof.
  split; [reflexivity|].
  refine (member_access_kinds (Q := Sample.queries) Sample.doc
            (Request "/nta/queries!" 0 "P.") _ (Sug "P.g" function)
            eq_refl eq_refl _).
  right; left; reflexivity.
Defined.

Lemma member_access_empty_in_type_contexts_witness :
  Str.contains "." "s." = true /\
  Str.ends_with Sample.sync_xpath (label_kind "synchronisation") = true /\
  autocomplete (Q := Sample.queries) Sample.doc (Request Sample.sync_xpath 0 "s.")
  = Returned [].
Proof.
  split; [reflexivity|]. split; [reflexivity|].
  destruct (autocomplete (Q := Sample.queries) Sample.doc
              (Request Sample.sync_xpath 0 "s.")) as [l|e] eqn:E;
    [|discriminate].
  f_equal.
  exact (member_access_empty_in_type_contexts (Q := Sample.queries) Sample.doc
           (Request Sample.sync_xpath 0 "s.") l eq_refl
           (or_intror (or_intror eq_refl)) E).
Defined.

Lemma template_member_access_witness :
  is_template (Q := Sample.queries) Sample.sym_P = true /\
  autocomplete (Q := Sample.queries) Sample.doc (Request "/nta/queries!" 0 "P.")
  = Returned (template_members "P." Sample.proc).
Proof.
  split; [reflexivity|].
  exact (proj1 (template_member_access (Q := Sample.queries) Sample.doc
                  (Request "/nta/queries!" 0 "P.")
                  (Declarations Sample.global_frame) 1 Sample.sym_P
                  eq_refl eq_refl eq_refl eq_refl) eq_refl).
Defined.

Lemma record_member_access_witness :
  find_declaration RecordSample.doc (Declarations Sample.global_frame) "Ss"
  = Some (EntityType RecordSample.t_S_array) /\
  autocomplete (Q := Sample.queries) RecordSample.doc
    (Request "/nta/declaration!" 0 "Ss.")
  = Returned [Sug "Ss.a" variable; Sug "Ss.b" variable].
Proof.
  split; [reflexivity|].
  refine (record_member_access (Q := Sample.queries) RecordSample.doc
            (Request "/nta/declaration!" 0 "Ss.")
            (Declarations Sample.global_frame) 2 RecordSample.t_S_array
            [("a", Sample.t_int); ("b", Sample.t_int)]
            eq_refl eq_refl eq_refl _).
  right. exists ARRAY, "", [("", Ty INT [])]. split; reflexivity.
Defined.

(** ** Kinds, visible symbols and defaults *)

Section Outcomes.
Context {Q : TypeQueries}.

(** [sym_type] never classifies a type as [process]. *)
Theorem sym_type_kinds (t : type_t) (k : SymType) :
  sym_type t = Some k ->
  k = function \/ k = variable \/ k = channel \/ k = type \/ k = unknown.
Proof.
  intros H. pose proof (sym_type_not_process t k H).
  destruct k; tauto.
Qed.

(** For an identifier without a dot, every visited symbol that is visible
    at the cursor and is not a template instance is returned under its name
    with the kind [sym_type] gives it, provided the mask admits the kind. *)
Theorem visible_symbol_returned (doc : Document) (id : Identifier)
  (decls : declarations_t) (l : list Suggestion) (sym : symbol_t)
  (range : TextRange) (k : SymType) :
  Str.contains "." (identifier id) = false ->
  navigate_xpath doc (xpath id) (offset id) = Some decls ->
  autocomplete doc id = Returned l ->
  In (sym, range) (visit_symbols doc decls) ->
  is_symbol_visible id decls sym range = true ->
  is_template sym = false ->
  sym_type (get_type sym) = Some k ->
  type_check (ignored_mask (xpath id)) k = true ->
  In (Sug (get_name sym) k) l.
Proof.
  intros Hc Hn H Hv Hvis Ht Hk Hm.
  rewrite (autocomplete_plain doc id decls Hn (plain_identifier _ Hc)) in H.
  destruct (gather _ _) as [offers|e] eqn:Hg; simpl in H; [|discriminate].
  injection H as <-.
  destruct (gather_incl _ _ _ _ Hg Hv) as [lv [Ho Hi]].
  simpl in Ho. rewrite Hvis, Ht, Hk in Ho. simpl in Ho. injection Ho as <-.
  apply in_or_app; right. apply emit_In. split; [|exact Hm].
  apply Hi. now left.
Qed.

(** Where no filter is installed, an identifier without a dot gets every
    entry of the context's tables, in order, at the front of the list: the
    query keywords under a [/queries!] suffix, the default keywords
    otherwise, then the built-in functions. The list is never empty. *)
Theorem unfiltered_defaults_returned (doc : Document) (id : Identifier)
  (l : list Suggestion) :
  matches_filtering_suffix (xpath id) = false ->
  Str.contains "." (identifier id) = false ->
  autocomplete doc id = Returned l ->
  l <> [] /\
  exists from_symbols,
    l = ((if Str.ends_with (xpath id) "/queries!"
          then queries_items else default_items)
         ++ builtin_functions ++ from_symbols)%list.
Proof.
  intros Hm Hc H.
  destruct (navigate_xpath doc (xpath id) (offset id)) as [decls|] eqn:Hn;
    [|unfold autocomplete in H; rewrite Hn in H; discriminate].
  rewrite (autocomplete_plain doc id decls Hn (plain_identifier _ Hc)) in H.
  destruct (gather _ _) as [offers|e] eqn:Hg; simpl in H; [|discriminate].
  injection H as <-.
  rewrite (emitted_defaults_unfiltered (xpath id) Hm).
  split.
  - destruct (Str.ends_with (xpath id) "/queries!"); discriminate.
  - exists (emit (ignored_mask (xpath id)) offers).
    now rewrite <- List.app_assoc.
Qed.

End Outcomes.

Lemma sym_type_kinds_witness :
  sym_type (Q := Sample.queries) (Ty CHANNEL []) = Some channel /\
  (channel = function \/ channel = variable \/ channel = channel
   \/ channel = type \/ channel = unknown).
Proof.
  split; [reflexivity|].
  exact (sym_type_kinds (Q := Sample.queries) (Ty CHANNEL []) channel eq_refl).
Defined.

Lemma visible_symbol_returned_witness :
  is_symbol_visible (Request "/nta/declaration!" 100 "")
    (Declarations Sample.global_frame) Sample.sym_c (Range 7 14) = true /\
  exists l,
    autocomplete (Q := Sample.queries) Sample.doc
      (Request "/nta/declaration!" 100 "") = Returned l /\
    In (Sug "c" channel) l.
Proof.
  split; [reflexivity|]. eexists. split; [reflexivity|].
  refine (visible_symbol_returned (Q := Sample.queries) Sample.doc
            (Request "/nta/declaration!" 100 "")
            (Declarations Sample.global_frame) _ Sample.sym_c (Range 7 14)
            channel eq_refl eq_refl eq_refl _ eq_refl eq_refl eq_refl eq_refl).
  right; left; reflexivity.
Defined.

Lemma unfiltered_defaults_returned_witness :
  matches_filtering_suffix "/nta/queries!" = false /\
  Str.contains "." "" = false /\
  exists l,
    autocomplete (Q := Sample.queries) Sample.doc (Request "/nta/queries!" 0 "")
    = Returned l /\
    l <> [].
Proof.
  split; [reflexivity|]. split; [reflexivity|]. eexists. split; [reflexivity|].
  exact (proj1 (unfiltered_defaults_returned (Q := Sample.queries) Sample.doc
                  (Request "/nta/queries!" 0 "") _ eq_refl eq_refl eq_refl)).
Defined.

(** ** Member access on a symbol that is not a template instance *)

Section SymbolAccess.
Context {Q : TypeQueries}.

(** A member access whose head resolves to a symbol that is not a template
    instance: when [is_struct] rejects the symbol (its type has no child, or
    several, as an array has, or one child that is no record) the result is
    the empty list; when the type has the single child [Ty RECORD cs], the
    fields of that record are returned in order under the prefix, if the
    context admits variables. *)
Theorem symbol_member_access (doc : Document) (id : Identifier)
  (decls : declarations_t) (off : nat) (sym : symbol_t) :
  navigate_xpath doc (xpath id) (offset id) = Some decls ->
  Str.find_last_of "." (identifier id) = Some off ->
  find_declaration doc decls (Str.substr (identifier id) 0 off)
  = Some (EntitySymbol sym) ->
  is_template sym = false ->
  (is_struct sym = false -> autocomplete doc id = Returned []) /\
  (forall k lb cs,
     get_type sym = Ty k [(lb, Ty RECORD cs)] ->
     is_ (Ty RECORD cs) RECORD = true ->
     autocomplete doc id
     = Returned
         (if type_check (ignored_mask (xpath id)) variable
          then map (fun lc =>
                      Sug (Str.substr (identifier id) 0 (off + 1) ++ fst lc)
                        variable) cs
          else [])).
Proof.
  intros Hn Hf Hd Ht.
  rewrite (autocomplete_dotted doc id decls off Hn Hf), Hd. simpl.
  rewrite Ht. simpl. split.
  - intros ->. reflexivity.
  - intros k lb cs Hty Hr. unfold is_struct, size, get. rewrite Hty. simpl.
    rewrite Hr. rewrite (emit_same_kind _ variable)
      by apply struct_members_variable.
    unfold struct_members.
    assert (E : struct_labels (Ty RECORD cs) = map fst cs)
      by (destruct cs as [|[l0 c0] cs']; reflexivity).
    now rewrite E, List.map_map.
Qed.

End SymbolAccess.

Lemma symbol_member_access_witness :
  is_template (Q := Sample.queries) Sample.sym_s = false /\
  autocomplete (Q := Sample.queries) Sample.doc (Request "/nta/declaration!" 0 "s.")
  = Returned [Sug "s.a" variable; Sug "s.b" variable].
Proof.
  split; [reflexivity|].
  exact (proj2 (symbol_member_access (Q := Sample.queries) Sample.doc
                  (Request "/nta/declaration!" 0 "s.")
                  (Declarations Sample.global_frame) 1 Sample.sym_s
                  eq_refl eq_refl eq_refl eq_refl)
           CONSTANT "" [("a", Sample.t_int); ("b", Sample.t_int)]
           eq_refl eq_refl).
Defined.
